(** * Todoist MCP server: tool dispatch, planning views and prompts

    A shallow embedding of the two servers of the repository:

    - [Index]: the class [TodoistMCPServer] of [src/index.ts], as the
      implementation plan gives it (source part 003): tool registry and
      dispatcher, task formatting helper, resource handler, daily and
      weekly planning views, prompt handlers;
    - [ServerTs]: [src/server.ts], the [McpServer] with the single tool
      [todoist_get_tasks_by_filter] declared with a zod schema.

    Conventions of the embedding.

    - A JavaScript string is a [string] holding the UTF-8 encoding of the
      text.  [JS.length] counts UTF-16 code units on that encoding and
      [JS.leb] compares by UTF-16 code units, as [String.prototype.length]
      and the default comparison of [Array.prototype.sort] do.
    - A JavaScript number that the code only uses as an integer (a task
      priority, an array length) is a [Z] or a [nat].
    - An [async] function is a function into [JS.completion]: it either
      returns a value or throws.  The remote Todoist client, the clock
      and the errors with which the SDK refuses a call are parameters. *)

From Stdlib Require Import String Ascii List ZArith NArith Bool Lia.
From Stdlib Require Import Permutation Sorted Decimal DecimalString OrdersEx.
From Stdlib Require Import RelationClasses DecimalPos DecimalZ.
Import ListNotations.
Local Open Scope list_scope.
Local Open Scope string_scope.
Set Warnings "-register-all".

(** ** JavaScript values, strings and exceptions *)

Module JS.

(** The line feed written [\n] in the source. *)
Definition nl : string := String "010"%char EmptyString.

(** The double quote written [\"] or ["] inside a template literal. *)
Definition dq : string := String "034"%char EmptyString.

(** [String(n)] for an integral number [n]. *)
Definition Z_toString (z : Z) : string := NilZero.string_of_int (Z.to_int z).

(** [String(n)] for an array length. *)
Definition nat_toString (n : nat) : string :=
  NilZero.string_of_uint (Nat.to_uint n).

(** Number of UTF-16 code units that the character started by the UTF-8
    byte [b] takes: continuation bytes count for nothing, the lead byte
    of a four-byte sequence (a surrogate pair) for two. *)
Definition code_units (b : ascii) : nat :=
  let n := N_of_ascii b in
  if (n <? 128)%N then 1
  else if (n <? 192)%N then 0
  else if (n <? 240)%N then 1
  else 2.

(** [s.length]. *)
Fixpoint length (s : string) : nat :=
  match s with
  | EmptyString => 0
  | String b rest => code_units b + length rest
  end.

(** UTF-8 bytes compare like code points; UTF-16 code units put the
    astral characters (lead bytes F0..F4) before U+E000..U+FFFF (lead
    bytes EE and EF).  [sort_byte] exchanges EE, EF with FE, FF, which
    well-formed UTF-8 never uses, so that bytewise comparison of the
    images is comparison by code units. *)
Definition sort_byte (b : ascii) : ascii :=
  let n := N_of_ascii b in
  if (n =? 238)%N then ascii_of_N 254
  else if (n =? 239)%N then ascii_of_N 255
  else if (n =? 254)%N then ascii_of_N 238
  else if (n =? 255)%N then ascii_of_N 239
  else b.

Fixpoint sort_key (s : string) : string :=
  match s with
  | EmptyString => EmptyString
  | String b rest => String (sort_byte b) (sort_key rest)
  end.

(** [a <= b] in the order of the default [sort()] comparison. *)
Definition leb (a b : string) : bool :=
  match String_as_OT.compare (sort_key a) (sort_key b) with
  | Gt => false
  | _ => true
  end.

(** [Array.prototype.sort] with a comparison [le]: the standard fixes the
    result (the sorted permutation, stable), not the algorithm. *)
Fixpoint insert {A : Type} (le : A -> A -> bool) (x : A) (l : list A) : list A :=
  match l with
  | [] => [x]
  | y :: rest => if le x y then x :: l else y :: insert le x rest
  end.

Fixpoint sortBy {A : Type} (le : A -> A -> bool) (l : list A) : list A :=
  match l with
  | [] => []
  | x :: rest => insert le x (sortBy le rest)
  end.

(** [array.sort()] on an array of strings. *)
Definition sort (l : list string) : list string := sortBy leb l.

(** [haystack.includes(needle)]. *)
Fixpoint includes (needle haystack : string) : bool :=
  if String.prefix needle haystack then true
  else match haystack with
       | EmptyString => false
       | String _ rest => includes needle rest
       end.

(** [s.split("\n")]. *)
Fixpoint lines_from (cur : string) (s : string) : list string :=
  match s with
  | EmptyString => [cur]
  | String c rest =>
      if Ascii.eqb c "010"%char then cur :: lines_from EmptyString rest
      else lines_from (cur ++ String c EmptyString) rest
  end.

Definition lines (s : string) : list string := lines_from EmptyString s.

(** No line feed occurs in [s]. *)
Fixpoint singleLine (s : string) : bool :=
  match s with
  | EmptyString => true
  | String c rest => negb (Ascii.eqb c "010"%char) && singleLine rest
  end.

(** A thrown value: an [Error] object with its [message], or anything
    else, kept as what [String(error)] gives. *)
Inductive exn : Type :=
| Error (message : string)
| Thrown (repr : string).

(** [error instanceof Error ? error.message : String(error)]. *)
Definition errorText (e : exn) : string :=
  match e with
  | Error message => message
  | Thrown repr => repr
  end.

(** The outcome of running a function body, or of awaiting a promise. *)
Inductive completion (A : Type) : Type :=
| Return (a : A)
| Throw (e : exn).
Arguments Return {A} a.
Arguments Throw {A} e.

Definition bind {A B : Type} (m : completion A) (k : A -> completion B)
  : completion B :=
  match m with
  | Return a => k a
  | Throw e => Throw e
  end.

(** [try { body } catch (error) { handler }]. *)
Definition try_catch {A : Type} (body : completion A) (handler : exn -> completion A)
  : completion A :=
  match body with
  | Return a => Return a
  | Throw e => handler e
  end.

(** [await Promise.all([p1, p2])] on two promises that are both already
    started: both results when both fulfil, otherwise the reason of the
    input that rejects first.  [secondFirst] says that [p2] settles
    before [p1]. *)
Definition Promise_all2 {A B : Type} (secondFirst : bool)
  (p1 : completion A) (p2 : completion B) : completion (A * B) :=
  match p1, p2 with
  | Return a, Return b => Return (a, b)
  | Throw e, Return _ => Throw e
  | Return _, Throw e => Throw e
  | Throw e1, Throw e2 => Throw (if secondFirst then e2 else e1)
  end.

(** A JSON value, as the arguments of a request carry them. *)
Inductive value : Type :=
| VUndefined
| VNull
| VBool (b : bool)
| VNum (n : Z)
| VStr (s : string)
| VArr (items : list value)
| VObj (fields : list (string * value)).

(** A plain object: its own properties in insertion order. *)
Definition object : Type := list (string * value).

(** [o[key]] on the own properties of a plain object. *)
Fixpoint get (o : object) (key : string) : value :=
  match o with
  | [] => VUndefined
  | (k, v) :: rest => if String.eqb k key then v else get rest key
  end.

(** [args.key] where [args] is [undefined] or an object: reading a
    property of [undefined] throws a [TypeError]. *)
Definition prop (args : option object) (key : string) : completion value :=
  match args with
  | None =>
      Throw (Error ("Cannot read properties of undefined (reading '" ++ key ++ "')"))
  | Some o => Return (get o key)
  end.

(** [array.push(x)], as the new value of the array. *)
Definition push {A : Type} (array : list A) (x : A) : list A := (array ++ [x])%list.

(** Objects used as dictionaries: own properties in insertion order. *)
Section Dictionary.
Context {A : Type}.

(** The own property [key] of [o], if any. *)
Fixpoint own (o : list (string * A)) (key : string) : option A :=
  match o with
  | [] => None
  | (k, v) :: rest => if String.eqb k key then Some v else own rest key
  end.

(** [o[key] = f(o[key])] on an own property. *)
Fixpoint update (o : list (string * A)) (key : string) (f : A -> A)
  : list (string * A) :=
  match o with
  | [] => []
  | (k, v) :: rest =>
      if String.eqb k key then (k, f v) :: rest else (k, v) :: update rest key f
  end.

End Dictionary.

(** [String(v)], which a template literal applies to an interpolated
    value [v] (the abstract operation [ToString]).  A plain object is
    converted by its [toString] method: the inherited one answers
    "[object Object]"; an own property [toString] hides it and, coming
    from JSON, is no function, and as [valueOf] then gives no primitive
    either the conversion throws a [TypeError].  An array is converted
    by [join]: its elements, converted in turn ([undefined] and [null]
    as the empty string), separated by commas.  [VNum] carries an
    integral number of the range (up to 2^53 in absolute value) in which
    a number prints as the decimal numeral with all its digits. *)
Fixpoint ToString (v : value) : completion string :=
  match v with
  | VUndefined => Return "undefined"
  | VNull => Return "null"
  | VBool true => Return "true"
  | VBool false => Return "false"
  | VNum n => Return (Z_toString n)
  | VStr s => Return s
  | VArr items =>
      bind
        ((fix elements (items : list value) : completion (list string) :=
            match items with
            | [] => Return []
            | item :: rest =>
                bind
                  match item with
                  | VUndefined | VNull => Return EmptyString
                  | _ => ToString item
                  end
                  (fun text =>
                     bind (elements rest) (fun texts => Return (text :: texts)))
            end) items)
        (fun texts => Return (String.concat "," texts))
  | VObj fields =>
      match own fields "toString" with
      | Some _ => Throw (Error "Cannot convert object to primitive value")
      | None => Return "[object Object]"
      end
  end.

(** The properties that a plain object inherits from [Object.prototype];
    each is a function, or the prototype itself for [__proto__]. *)
Definition objectPrototypeKeys : list string :=
  ["constructor"; "__defineGetter__"; "__defineSetter__"; "hasOwnProperty";
   "__lookupGetter__"; "__lookupSetter__"; "isPrototypeOf";
   "propertyIsEnumerable"; "toString"; "valueOf"; "__proto__";
   "toLocaleString"].

Definition inherited (key : string) : bool :=
  existsb (String.eqb key) objectPrototypeKeys.

(** The value of a decimal digit. *)
Definition digit (c : ascii) : option N :=
  let n := N_of_ascii c in
  if ((48 <=? n) && (n <=? 57))%N then Some (n - 48)%N else None.

Fixpoint digits (acc : N) (s : string) : option N :=
  match s with
  | EmptyString => Some acc
  | String c rest =>
      match digit c with
      | Some d => digits (acc * 10 + d)%N rest
      | None => None
      end
  end.

(** The array index that a property key denotes: a canonical decimal
    numeral below 2^32 - 1. *)
Definition arrayIndex (key : string) : option N :=
  match key with
  | EmptyString => None
  | String "0"%char EmptyString => Some 0%N
  | String "0"%char _ => None
  | _ =>
      match digits 0 key with
      | Some n => if (n <? 4294967295)%N then Some n else None
      | None => None
      end
  end.

Definition isArrayIndex (key : string) : bool :=
  match arrayIndex key with
  | Some _ => true
  | None => false
  end.

Definition indexLeb (a b : string) : bool :=
  match arrayIndex a, arrayIndex b with
  | Some m, Some n => (m <=? n)%N
  | _, _ => true
  end.

(** [Object.keys(o)]: the array indices in ascending numeric order, then
    the other keys in insertion order. *)
Definition keys {A : Type} (o : list (string * A)) : list string :=
  (sortBy indexLeb (filter isArrayIndex (map fst o))
   ++ filter (fun key => negb (isArrayIndex key)) (map fst o))%list.

(** A string used as a condition: truthy unless absent or empty. *)
Definition truthy (s : option string) : bool :=
  match s with
  | Some (String _ _) => true
  | _ => false
  end.

End JS.

Notation "x <- m ;; k" := (JS.bind m (fun x => k))
  (at level 61, m at next level, right associativity).

(** ** The data of the remote service *)

(** [task.due]: the due date [date] (YYYY-MM-DD) and its display text
    [string]. *)
Module Due.
Record t : Type := { date : string; string : String.string }.
End Due.

(** A task as the remote client returns it.  The handlers take tasks as
    [any], so every field they test for presence is optional. *)
Module Task.
Record t : Type := {
  id : string;
  content : string;
  description : option string;
  due : option Due.t;
  priority : Z;
  labels : option (list string);
  projectId : option string;
  url : string
}.
End Task.

Module Project.
Record t : Type := { id : string; name : string; isShared : bool }.
End Project.

(** The remote client [todoistClient] of [@doist/todoist-api-typescript]:
    every call is awaited, so each operation is a function from its
    argument to a completion.  Arguments that the callers pass through
    unchanged are [undefined] or an object. *)
Module TodoistApi.
Record t : Type := {
  addTask : option JS.object -> JS.completion Task.t;
  getTasks : option JS.object -> JS.completion (list Task.t);
  getTasksByFilter : option JS.object -> JS.completion (list Task.t);
  updateTask : JS.value -> JS.object -> JS.completion Task.t;
  closeTask : JS.value -> JS.completion bool;
  reopenTask : JS.value -> JS.completion bool;
  deleteTask : JS.value -> JS.completion bool;
  getProjects : JS.object -> JS.completion (list Project.t);
  quickAddTask : option JS.object -> JS.completion Task.t
}.
End TodoistApi.

(** ** Results of the protocol *)

Module TextContent.
Record t : Type := { type : string; text : string }.
End TextContent.

(** The result of a tool call; [isError] is [None] when the property is
    not set. *)
Module CallToolResult.
Record t : Type := { content : list TextContent.t; isError : option bool }.
End CallToolResult.

Module ResourceContents.
Record t : Type := { uri : string; mimeType : string; text : string }.
End ResourceContents.

Module ReadResourceResult.
Record t : Type := { contents : list ResourceContents.t }.
End ReadResourceResult.

Module PromptMessage.
Record t : Type := { role : string; content : TextContent.t }.
End PromptMessage.

Module GetPromptResult.
Record t : Type := { description : string; messages : list PromptMessage.t }.
End GetPromptResult.

(** [{ content: [{ type: "text", text }] }]. *)
Definition textResult (text : string) : CallToolResult.t :=
  {| CallToolResult.content := [ {| TextContent.type := "text"; TextContent.text := text |} ];
     CallToolResult.isError := None |}.

(** [{ content: [{ type: "text", text }], isError: true }]. *)
Definition errorResult (text : string) : CallToolResult.t :=
  {| CallToolResult.content := [ {| TextContent.type := "text"; TextContent.text := text |} ];
     CallToolResult.isError := Some true |}.

(** ** [src/index.ts]: the class [TodoistMCPServer] *)

Module Index.

(** *** The tool registry (the [ListTools] handler) *)

Module Tool.
Record t : Type := { name : string; description : string; inputSchema : JS.value }.
End Tool.

Definition stringProperty (description : string) : JS.value :=
  JS.VObj [("type", JS.VStr "string"); ("description", JS.VStr description)].

Definition stringArrayProperty (description : string) : JS.value :=
  JS.VObj [("type", JS.VStr "array");
           ("items", JS.VObj [("type", JS.VStr "string")]);
           ("description", JS.VStr description)].

Definition priorityEnum : JS.value :=
  JS.VArr [JS.VNum 1; JS.VNum 2; JS.VNum 3; JS.VNum 4].

Definition objectSchema (properties : JS.object) (required : option (list string))
  : JS.value :=
  JS.VObj ([("type", JS.VStr "object"); ("properties", JS.VObj properties)]
           ++ match required with
              | Some names => [("required", JS.VArr (map JS.VStr names))]
              | None => []
              end)%list.

Definition taskIdSchema (description : string) : JS.value :=
  objectSchema [("task_id", stringProperty description)] (Some ["task_id"]).

Definition tools : list Tool.t :=
  [ {| Tool.name := "todoist_add_task";
       Tool.description := "Create a new task using addTask()";
       Tool.inputSchema :=
         objectSchema
           [("content", stringProperty "Task content/title");
            ("description", stringProperty "Task description");
            ("projectId", stringProperty "Project ID");
            ("sectionId", stringProperty "Section ID");
            ("parentId", stringProperty "Parent task ID for subtasks");
            ("order", JS.VObj [("type", JS.VStr "number");
                               ("description", JS.VStr "Task order")]);
            ("labels", stringArrayProperty "Task labels");
            ("priority", JS.VObj [("type", JS.VStr "number");
                                  ("description", JS.VStr "Priority from 1 (normal) to 4 (urgent)");
                                  ("enum", priorityEnum)]);
            ("dueString", stringProperty
               "Due date in natural language (e.g., 'tomorrow', 'next Monday')");
            ("dueDate", stringProperty "Due date in YYYY-MM-DD format");
            ("dueDatetime", stringProperty "Due datetime in RFC3339 format");
            ("dueLang", stringProperty "Language for dueString parsing");
            ("assigneeId", stringProperty "User ID to assign task to")]
           (Some ["content"]) |};
    {| Tool.name := "todoist_get_tasks";
       Tool.description := "Get tasks using getTasks()";
       Tool.inputSchema :=
         objectSchema
           [("projectId", stringProperty "Filter by project ID");
            ("sectionId", stringProperty "Filter by section ID");
            ("label", stringProperty "Filter by label name");
            ("ids", stringArrayProperty "Specific task IDs to fetch")]
           None |};
    {| Tool.name := "todoist_get_tasks_by_filter";
       Tool.description := "Get tasks using getTasksByFilter() with filter expressions";
       Tool.inputSchema :=
         objectSchema
           [("filter", stringProperty
               "Filter expression (e.g., 'today', 'overdue', 'p1', '7 days')");
            ("lang", stringProperty "Language for filter expression")]
           (Some ["filter"]) |};
    {| Tool.name := "todoist_update_task";
       Tool.description := "Update an existing task using updateTask()";
       Tool.inputSchema :=
         objectSchema
           [("task_id", stringProperty "Task ID to update");
            ("content", stringProperty "New task content");
            ("description", stringProperty "New task description");
            ("labels", stringArrayProperty "New labels");
            ("priority", JS.VObj [("type", JS.VStr "number");
                                  ("enum", priorityEnum);
                                  ("description", JS.VStr "New priority")]);
            ("dueString", stringProperty "New due date in natural language");
            ("dueDate", stringProperty "New due date in YYYY-MM-DD format");
            ("dueDatetime", stringProperty "New due datetime in RFC3339 format")]
           (Some ["task_id"]) |};
    {| Tool.name := "todoist_close_task";
       Tool.description := "Mark a task as completed using closeTask()";
       Tool.inputSchema := taskIdSchema "Task ID to close/complete" |};
    {| Tool.name := "todoist_reopen_task";
       Tool.description := "Reopen a completed task using reopenTask()";
       Tool.inputSchema := taskIdSchema "Task ID to reopen" |};
    {| Tool.name := "todoist_delete_task";
       Tool.description := "Delete a task permanently using deleteTask()";
       Tool.inputSchema := taskIdSchema "Task ID to delete" |};
    {| Tool.name := "todoist_get_projects";
       Tool.description := "Get all projects using getProjects()";
       Tool.inputSchema := objectSchema [] None |};
    {| Tool.name := "todoist_quick_add_task";
       Tool.description :=
         "Quickly add a task using natural language processing via quickAddTask()";
       Tool.inputSchema :=
         objectSchema
           [("text", stringProperty
               "Natural language task description (e.g., 'Call mom tomorrow at 3pm')");
            ("note", stringProperty "Task note/description");
            ("reminder", stringProperty "Reminder text");
            ("autoReminder", JS.VObj [("type", JS.VStr "boolean");
                                      ("description", JS.VStr "Enable auto reminder")])]
           (Some ["text"]) |} ].

(** The names a client is told it may call. *)
Definition registered (name : string) : bool :=
  existsb (fun tool => String.eqb (Tool.name tool) name) tools.

(** The schema that the registry declares for property [key] of tool
    [name] ([VUndefined] when there is none). *)
Definition declaredProperty (name key : string) : JS.value :=
  match find (fun tool => String.eqb (Tool.name tool) name) tools with
  | Some tool =>
      match Tool.inputSchema tool with
      | JS.VObj schema =>
          match JS.get schema "properties" with
          | JS.VObj properties => JS.get properties key
          | _ => JS.VUndefined
          end
      | _ => JS.VUndefined
      end
  | None => JS.VUndefined
  end.

(** A keyword of a property schema ([VUndefined] when not written). *)
Definition keyword (schema : JS.value) (key : string) : JS.value :=
  match schema with
  | JS.VObj fields => JS.get fields key
  | _ => JS.VUndefined
  end.

(** *** The prompt registry (the [ListPrompts] handler) *)

Module Prompt.
Record t : Type := {
  name : string;
  description : string;
  arguments : list (string * string * bool)
}.
End Prompt.

(** The [ListPrompts] handler; an argument is (name, description,
    required). *)
Definition prompts : list Prompt.t :=
  [ {| Prompt.name := "daily_planner";
       Prompt.description := "Get comprehensive daily planning assistance";
       Prompt.arguments := [] |};
    {| Prompt.name := "task_manager";
       Prompt.description := "General task management and organization help";
       Prompt.arguments := [("context", "What you need help with (optional)", false)] |} ].

Definition registeredPrompt (name : string) : bool :=
  existsb (fun prompt => String.eqb (Prompt.name prompt) name) prompts.

(** *** The task formatting helper *)

(** [String(s)] for a string-valued field that may be [undefined]. *)
Definition show (s : option string) : string :=
  match s with
  | Some text => text
  | None => "undefined"
  end.

(** [formatTaskDetails]. *)
Definition formatTaskDetails (task : Task.t) : string :=
  let parts := ["• " ++ Task.content task ++ " (ID: " ++ Task.id task ++ ")"] in
  let parts :=
    if JS.truthy (Task.description task)
    then JS.push parts ("  Description: " ++ show (Task.description task))
    else parts in
  let parts :=
    match Task.due task with
    | Some due => JS.push parts ("  Due: " ++ Due.string due)
    | None => parts
    end in
  let parts :=
    if (1 <? Task.priority task)%Z
    then JS.push parts ("  Priority: " ++ JS.Z_toString (Task.priority task))
    else parts in
  let parts :=
    match Task.labels task with
    | Some labels =>
        if (0 <? List.length labels)%nat
        then JS.push parts ("  Labels: " ++ String.concat ", " labels)
        else parts
    | None => parts
    end in
  let parts :=
    if JS.truthy (Task.projectId task)
    then JS.push parts ("  Project: " ++ show (Task.projectId task))
    else parts in
  String.concat JS.nl parts.

(** [array.forEach] and [for ... of] with a body that may throw: the
    state is what the body mutates. *)
Fixpoint forEach {A S : Type} (body : S -> A -> JS.completion S)
  (array : list A) (state : S) : JS.completion S :=
  match array with
  | [] => JS.Return state
  | x :: rest => state' <- body state x ;; forEach body rest state'
  end.

Section Server.

(** The module-level client. *)
Variable todoistClient : TodoistApi.t.

(** *** Tool implementations *)

Definition addTask (args : option JS.object) : JS.completion CallToolResult.t :=
  task <- TodoistApi.addTask todoistClient args ;;
  JS.Return
    (textResult
       ("✓ Created task: " ++ JS.dq ++ Task.content task ++ JS.dq ++ JS.nl
        ++ "ID: " ++ Task.id task ++ JS.nl ++ "URL: " ++ Task.url task)).

Definition getTasks (args : option JS.object) : JS.completion CallToolResult.t :=
  tasks <- TodoistApi.getTasks todoistClient args ;;
  if Nat.eqb (List.length tasks) 0
  then JS.Return (textResult "No tasks found matching the criteria.")
  else
    let formatted := String.concat (JS.nl ++ JS.nl) (map formatTaskDetails tasks) in
    JS.Return
      (textResult
         ("Found " ++ JS.nat_toString (List.length tasks) ++ " tasks:"
          ++ JS.nl ++ JS.nl ++ formatted)).

Definition getTasksByFilter (args : option JS.object)
  : JS.completion CallToolResult.t :=
  tasks <- TodoistApi.getTasksByFilter todoistClient args ;;
  if Nat.eqb (List.length tasks) 0
  then JS.Return (textResult "No tasks found matching the filter.")
  else
    let formatted := String.concat (JS.nl ++ JS.nl) (map formatTaskDetails tasks) in
    filter <- JS.prop args "filter" ;;
    filter <- JS.ToString filter ;;
    JS.Return
      (textResult
         ("Found " ++ JS.nat_toString (List.length tasks) ++ " tasks with filter "
          ++ JS.dq ++ filter ++ JS.dq ++ ":" ++ JS.nl ++ JS.nl
          ++ formatted)).

(** [const { task_id, ...updateData } = args]. *)
Definition destructureTaskId (args : option JS.object)
  : JS.completion (JS.value * JS.object) :=
  match args with
  | None =>
      JS.Throw
        (JS.Error "Cannot destructure property 'task_id' of 'args' as it is undefined.")
  | Some o =>
      JS.Return
        (JS.get o "task_id",
         filter (fun field => negb (String.eqb (fst field) "task_id")) o)
  end.

Definition updateTask (args : option JS.object) : JS.completion CallToolResult.t :=
  destructured <- destructureTaskId args ;;
  updatedTask <-
    TodoistApi.updateTask todoistClient (fst destructured) (snd destructured) ;;
  JS.Return
    (textResult
       ("✓ Updated task: " ++ JS.dq ++ Task.content updatedTask ++ JS.dq ++ JS.nl
        ++ "ID: " ++ Task.id updatedTask)).

Definition closeTask (args : option JS.object) : JS.completion CallToolResult.t :=
  task_id <- JS.prop args "task_id" ;;
  success <- TodoistApi.closeTask todoistClient task_id ;;
  text <-
    (if success : bool
     then id <- JS.ToString task_id ;; JS.Return ("✓ Task " ++ id ++ " marked as complete")
     else id <- JS.ToString task_id ;; JS.Return ("✗ Failed to complete task " ++ id)) ;;
  JS.Return (textResult text).

Definition reopenTask (args : option JS.object) : JS.completion CallToolResult.t :=
  task_id <- JS.prop args "task_id" ;;
  success <- TodoistApi.reopenTask todoistClient task_id ;;
  text <-
    (if success : bool
     then id <- JS.ToString task_id ;; JS.Return ("✓ Task " ++ id ++ " reopened")
     else id <- JS.ToString task_id ;; JS.Return ("✗ Failed to reopen task " ++ id)) ;;
  JS.Return (textResult text).

Definition deleteTask (args : option JS.object) : JS.completion CallToolResult.t :=
  task_id <- JS.prop args "task_id" ;;
  success <- TodoistApi.deleteTask todoistClient task_id ;;
  text <-
    (if success : bool
     then id <- JS.ToString task_id ;; JS.Return ("✓ Task " ++ id ++ " deleted permanently")
     else id <- JS.ToString task_id ;; JS.Return ("✗ Failed to delete task " ++ id)) ;;
  JS.Return (textResult text).

Definition projectLine (project : Project.t) : string :=
  "- " ++ Project.name project ++ " (ID: " ++ Project.id project ++ ")"
  ++ (if Project.isShared project then " [Shared]" else EmptyString).

Definition getProjects : JS.completion CallToolResult.t :=
  projects <- TodoistApi.getProjects todoistClient [] ;;
  let formatted := String.concat JS.nl (map projectLine projects) in
  JS.Return (textResult ("Projects:" ++ JS.nl ++ formatted)).

Definition quickAddTask (args : option JS.object) : JS.completion CallToolResult.t :=
  task <- TodoistApi.quickAddTask todoistClient args ;;
  JS.Return
    (textResult
       ("✓ Quick-added task: " ++ JS.dq ++ Task.content task ++ JS.dq ++ JS.nl
        ++ "ID: " ++ Task.id task)).

(** *** The dispatcher (the [CallTool] handler) *)

(** The [switch (name)] of the handler. *)
Definition route (name : string) (args : option JS.object)
  : JS.completion CallToolResult.t :=
  if String.eqb name "todoist_add_task" then addTask args
  else if String.eqb name "todoist_get_tasks" then getTasks args
  else if String.eqb name "todoist_get_tasks_by_filter" then getTasksByFilter args
  else if String.eqb name "todoist_update_task" then updateTask args
  else if String.eqb name "todoist_close_task" then closeTask args
  else if String.eqb name "todoist_reopen_task" then reopenTask args
  else if String.eqb name "todoist_delete_task" then deleteTask args
  else if String.eqb name "todoist_get_projects" then getProjects
  else if String.eqb name "todoist_quick_add_task" then quickAddTask args
  else JS.Throw (JS.Error ("Unknown tool: " ++ name)).

(** The handler of [CallToolRequestSchema], on [request.params]. *)
Definition callTool (name : string) (args : option JS.object)
  : JS.completion CallToolResult.t :=
  JS.try_catch (route name args)
    (fun error => JS.Return (errorResult ("Error: " ++ JS.errorText error))).

(** *** Planning views *)

(** What the views take from the runtime.  [overdueFirst]: in the daily
    view the "overdue" query settles before the "today" query.
    [todayIso]: [new Date().toISOString().split("T")[0]].
    [weekdayName date]:
    [new Date(date).toLocaleDateString("en-US", { weekday: "long" })]. *)
Variable overdueFirst : bool.
Variable todayIso : string.
Variable weekdayName : string -> string.

(** The arguments of the three filtered queries: [{ filter: "today" }],
    [{ filter: "overdue" }] and [{ filter: "7 days" }]. *)
Definition todayFilter : option JS.object := Some [("filter", JS.VStr "today")].

Definition overdueFilter : option JS.object := Some [("filter", JS.VStr "overdue")].

Definition weekFilter : option JS.object := Some [("filter", JS.VStr "7 days")].

(** [tasks.map((task) => `- ${task.content}`).join("\n")]. *)
Definition taskLine (task : Task.t) : string := "- " ++ Task.content task.

Definition taskLines (tasks : list Task.t) : string :=
  String.concat JS.nl (map taskLine tasks).

(** The three groups of [generateDailyPlanningView]. *)
Definition urgent (todayTasks : list Task.t) : list Task.t :=
  filter (fun t => (Task.priority t =? 4)%Z) todayTasks.

Definition high (todayTasks : list Task.t) : list Task.t :=
  filter (fun t => (Task.priority t =? 3)%Z) todayTasks.

Definition normal (todayTasks : list Task.t) : list Task.t :=
  filter (fun t => (Task.priority t <=? 2)%Z) todayTasks.

(** The one-line summary that closes the daily view. *)
Definition dailySummary (overdueTasks todayTasks : list Task.t) : string :=
  "**Summary:** " ++ JS.nat_toString (List.length overdueTasks) ++ " overdue, "
  ++ JS.nat_toString (List.length todayTasks) ++ " today".

(** The body of [generateDailyPlanningView] once both queries have
    returned; each [let content] is one [content += ...]. *)
Definition dailyPlanningDocument (todayTasks overdueTasks : list Task.t) : string :=
  let content := "# Daily Planning Overview" ++ JS.nl ++ JS.nl in
  let content :=
    if (0 <? List.length overdueTasks)%nat
    then content ++ "## 🚨 Overdue Tasks" ++ JS.nl
         ++ taskLines overdueTasks ++ JS.nl ++ JS.nl
    else content in
  let content :=
    if (0 <? List.length todayTasks)%nat
    then
      let content := content ++ "## 📅 Today's Tasks" ++ JS.nl in
      let content :=
        if (0 <? List.length (urgent todayTasks))%nat
        then content ++ "### 🔴 Urgent" ++ JS.nl
             ++ taskLines (urgent todayTasks) ++ JS.nl ++ JS.nl
        else content in
      let content :=
        if (0 <? List.length (high todayTasks))%nat
        then content ++ "### 🟡 High Priority" ++ JS.nl
             ++ taskLines (high todayTasks) ++ JS.nl ++ JS.nl
        else content in
      if (0 <? List.length (normal todayTasks))%nat
      then content ++ "### ⚪ Normal" ++ JS.nl
           ++ taskLines (normal todayTasks) ++ JS.nl ++ JS.nl
      else content
    else content ++ "## 📅 Today's Tasks" ++ JS.nl
         ++ "No tasks scheduled for today." ++ JS.nl ++ JS.nl in
  content ++ dailySummary overdueTasks todayTasks.

Definition generateDailyPlanningView : JS.completion string :=
  results <-
    JS.Promise_all2 overdueFirst
      (TodoistApi.getTasksByFilter todoistClient todayFilter)
      (TodoistApi.getTasksByFilter todoistClient overdueFilter) ;;
  JS.Return (dailyPlanningDocument (fst results) (snd results)).

(** [tasksByDate]: an object from date keys to arrays of tasks. *)
Definition TasksByDate : Type := list (string * list Task.t).

(** The [TypeError] of calling [.push] on a value that has none. *)
Definition pushIsNotAFunction : JS.exn :=
  JS.Error "tasksByDate[dateKey].push is not a function".

(** The body of [weekTasks.forEach].  [tasksByDate[dateKey]] is falsy only
    when the key is neither an own property nor inherited; on an
    inherited property the array is not created and [.push] is not a
    function. *)
Definition groupTask (tasksByDate : TasksByDate) (task : Task.t)
  : JS.completion TasksByDate :=
  match Task.due task with
  | None => JS.Return tasksByDate
  | Some due =>
      let dateKey := Due.date due in
      match JS.own tasksByDate dateKey with
      | Some _ =>
          JS.Return (JS.update tasksByDate dateKey (fun tasks => JS.push tasks task))
      | None =>
          if JS.inherited dateKey
          then JS.Throw pushIsNotAFunction
          else JS.Return (JS.push tasksByDate (dateKey, [task]))
      end
  end.

Definition groupByDate (weekTasks : list Task.t) : JS.completion TasksByDate :=
  forEach groupTask weekTasks [].

(** [Object.keys(tasksByDate).sort()]. *)
Definition sortedDates (tasksByDate : TasksByDate) : list string :=
  JS.sort (JS.keys tasksByDate).

(** The heading line of a date section. *)
Definition dateHeading (date : string) : string :=
  "## " ++ weekdayName date ++ ", " ++ date
  ++ (if String.eqb date todayIso then " (Today)" else EmptyString) ++ JS.nl.

(** The section of [date]: heading, task lines, blank line. *)
Definition dateSection (date : string) (tasks : list Task.t) : string :=
  dateHeading date ++ taskLines tasks ++ JS.nl ++ JS.nl.

(** The body of [for (const date of sortedDates)]. *)
Definition renderDate (tasksByDate : TasksByDate) (content : string) (date : string)
  : JS.completion string :=
  match JS.own tasksByDate date with
  | Some tasks => JS.Return (content ++ dateSection date tasks)
  | None => JS.Throw (JS.Error "Cannot read properties of undefined (reading 'map')")
  end.

Definition weeklyTotal (weekTasks : list Task.t) : string :=
  "**Total this week:** " ++ JS.nat_toString (List.length weekTasks) ++ " tasks".

(** The body of [generateWeeklyPlanningView] once the query has
    returned. *)
Definition weeklyPlanningDocument (weekTasks : list Task.t) : JS.completion string :=
  let content := "# Weekly Planning Overview" ++ JS.nl ++ JS.nl in
  if Nat.eqb (List.length weekTasks) 0
  then JS.Return (content ++ "No tasks scheduled for this week.")
  else
    tasksByDate <- groupByDate weekTasks ;;
    content <- forEach (renderDate tasksByDate) (sortedDates tasksByDate) content ;;
    JS.Return (content ++ weeklyTotal weekTasks).

Definition generateWeeklyPlanningView : JS.completion string :=
  weekTasks <- TodoistApi.getTasksByFilter todoistClient weekFilter ;;
  weeklyPlanningDocument weekTasks.

(** The dates of the sections of the weekly view, in the order in which
    the loop renders them. *)
Definition sectionDates (weekTasks : list Task.t) : JS.completion (list string) :=
  tasksByDate <- groupByDate weekTasks ;;
  JS.Return (sortedDates tasksByDate).

(** The date keys of the tasks that have a due date, in query order. *)
Definition dueDates (tasks : list Task.t) : list string :=
  flat_map
    (fun task =>
       match Task.due task with
       | Some due => [Due.date due]
       | None => []
       end)
    tasks.

(** The tasks that have a due date. *)
Definition dated (tasks : list Task.t) : list Task.t :=
  filter
    (fun task => match Task.due task with Some _ => true | None => false end)
    tasks.

(** [tasksByDate[date]] for an own key. *)
Definition tasksOn (tasksByDate : TasksByDate) (date : string) : list Task.t :=
  match JS.own tasksByDate date with
  | Some tasks => tasks
  | None => []
  end.

(** The tasks whose lines the date sections show, in rendering order. *)
Definition renderedTasks (tasksByDate : TasksByDate) : list Task.t :=
  flat_map (tasksOn tasksByDate) (sortedDates tasksByDate).

(** The date sections in rendering order, one after the other. *)
Definition dateSections (tasksByDate : TasksByDate) : string :=
  String.concat EmptyString
    (map (fun date => dateSection date (tasksOn tasksByDate date))
       (sortedDates tasksByDate)).

(** A calendar date as the remote service writes it: YYYY-MM-DD. *)
Definition isDigit (c : ascii) : bool :=
  match JS.digit c with
  | Some _ => true
  | None => false
  end.

Definition isCalendarDate (date : string) : bool :=
  match date with
  | String y1 (String y2 (String y3 (String y4 (String "-"
      (String m1 (String m2 (String "-" (String d1 (String d2 EmptyString))))))))) =>
      isDigit y1 && isDigit y2 && isDigit y3 && isDigit y4
      && isDigit m1 && isDigit m2 && isDigit d1 && isDigit d2
  | _ => false
  end.

(** *** The resource handler (the [ReadResource] handler) *)

Definition markdown (uri text : string) : ReadResourceResult.t :=
  {| ReadResourceResult.contents :=
       [ {| ResourceContents.uri := uri;
            ResourceContents.mimeType := "text/markdown";
            ResourceContents.text := text |} ] |}.

Definition readResource (uri : string) : JS.completion ReadResourceResult.t :=
  JS.try_catch
    (content <-
       (if String.eqb uri "todoist://planning/daily" then generateDailyPlanningView
        else if String.eqb uri "todoist://planning/weekly" then generateWeeklyPlanningView
        else JS.Throw (JS.Error ("Unknown resource: " ++ uri))) ;;
     JS.Return (markdown uri content))
    (fun error => JS.Return (markdown uri ("Error: " ++ JS.errorText error))).

(** *** The prompt handlers *)

Definition userMessage (description text : string) : GetPromptResult.t :=
  {| GetPromptResult.description := description;
     GetPromptResult.messages :=
       [ {| PromptMessage.role := "user";
            PromptMessage.content :=
              {| TextContent.type := "text"; TextContent.text := text |} |} ] |}.

Definition generateDailyPlannerPrompt : JS.completion GetPromptResult.t :=
  dailyView <- generateDailyPlanningView ;;
  JS.Return
    (userMessage "Daily planning assistant"
       ("I need help planning my day. Here's my current task situation:" ++ JS.nl
        ++ JS.nl ++ dailyView ++ JS.nl ++ JS.nl
        ++ "Please help me:" ++ JS.nl
        ++ "1. **Prioritize** - What should I focus on first?" ++ JS.nl
        ++ "2. **Schedule** - How should I organize my day?" ++ JS.nl
        ++ "3. **Capacity** - Is this realistic for today?" ++ JS.nl
        ++ "4. **Actions** - What specific steps should I take?" ++ JS.nl
        ++ JS.nl
        ++ "Provide a concrete daily plan with time estimates and suggest any Todoist commands I should run.")).

Definition generateTaskManagerPrompt (context : option string)
  : JS.completion GetPromptResult.t :=
  weeklyView <- generateWeeklyPlanningView ;;
  let contextText :=
    if JS.truthy context
    then JS.nl ++ JS.nl ++ "Specific context: " ++ show context
    else EmptyString in
  JS.Return
    (userMessage "Task management assistant"
       ("I need help managing my tasks effectively. Here's my current workload:"
        ++ JS.nl ++ JS.nl ++ weeklyView ++ contextText ++ JS.nl ++ JS.nl
        ++ "Please help me:" ++ JS.nl
        ++ "1. **Organization** - How can I better organize these tasks?" ++ JS.nl
        ++ "2. **Workflow** - What's the most efficient approach?" ++ JS.nl
        ++ "3. **Tools** - What Todoist features/commands would help?" ++ JS.nl
        ++ "4. **Planning** - How should I approach this workload?" ++ JS.nl
        ++ JS.nl
        ++ "Give me actionable advice and specific Todoist commands I can use.")).

(** [args?.context] on the string-valued arguments of a prompt request. *)
Definition contextOf (args : option (list (string * string))) : option string :=
  match args with
  | Some fields => JS.own fields "context"
  | None => None
  end.

(** The handler of [GetPromptRequestSchema], on [request.params]: the
    [switch] is not inside a [try]. *)
Definition getPrompt (name : string) (args : option (list (string * string)))
  : JS.completion GetPromptResult.t :=
  if String.eqb name "daily_planner" then generateDailyPlannerPrompt
  else if String.eqb name "task_manager" then generateTaskManagerPrompt (contextOf args)
  else JS.Throw (JS.Error ("Unknown prompt: " ++ name)).

End Server.

(** *** The resource registry (the [ListResources] handler) *)

Module Resource.
Record t : Type := {
  uri : string;
  mimeType : string;
  name : string;
  description : string
}.
End Resource.

Definition resources : list Resource.t :=
  [ {| Resource.uri := "todoist://planning/daily";
       Resource.mimeType := "text/markdown";
       Resource.name := "Daily Planning Overview";
       Resource.description := "Today's tasks organized for daily planning" |};
    {| Resource.uri := "todoist://planning/weekly";
       Resource.mimeType := "text/markdown";
       Resource.name := "Weekly Planning Overview";
       Resource.description := "This week's tasks organized for weekly planning" |} ].

Definition listedResource (uri : string) : bool :=
  existsb (fun resource => String.eqb (Resource.uri resource) uri) resources.

(** A remote client none of whose operations fails. *)
Definition reliable (todoistClient : TodoistApi.t) : Prop :=
  (forall args, exists task, TodoistApi.addTask todoistClient args = JS.Return task)
  /\ (forall args, exists tasks,
        TodoistApi.getTasks todoistClient args = JS.Return tasks)
  /\ (forall args, exists tasks,
        TodoistApi.getTasksByFilter todoistClient args = JS.Return tasks)
  /\ (forall id fields, exists task,
        TodoistApi.updateTask todoistClient id fields = JS.Return task)
  /\ (forall id, exists success,
        TodoistApi.closeTask todoistClient id = JS.Return success)
  /\ (forall id, exists success,
        TodoistApi.reopenTask todoistClient id = JS.Return success)
  /\ (forall id, exists success,
        TodoistApi.deleteTask todoistClient id = JS.Return success)
  /\ (forall args, exists projects,
        TodoistApi.getProjects todoistClient args = JS.Return projects)
  /\ (forall args, exists task,
        TodoistApi.quickAddTask todoistClient args = JS.Return task).

(** The tasks of a query result that are due on [date], in query
    order. *)
Definition dueOn (date : string) (tasks : list Task.t) : list Task.t :=
  filter
    (fun task =>
       match Task.due task with
       | Some due => String.eqb (Due.date due) date
       | None => false
       end)
    tasks.

End Index.

(** ** [src/server.ts]: the [McpServer] with one tool *)

(** The part of zod that the tool schema uses: [z.string()] with
    [.min], [.max] and [.optional]. *)
Module Zod.

Record ZodString : Type := {
  minLength : option nat;
  maxLength : option nat;
  isOptional : bool
}.

(** [z.string()]. *)
Definition z_string : ZodString :=
  {| minLength := None; maxLength := None; isOptional := false |}.

(** [schema.min(n)]. *)
Definition min (n : nat) (schema : ZodString) : ZodString :=
  {| minLength := Some n;
     maxLength := maxLength schema;
     isOptional := isOptional schema |}.

(** [schema.max(n)]. *)
Definition max (n : nat) (schema : ZodString) : ZodString :=
  {| minLength := minLength schema;
     maxLength := Some n;
     isOptional := isOptional schema |}.

(** [schema.optional()]. *)
Definition optional (schema : ZodString) : ZodString :=
  {| minLength := minLength schema;
     maxLength := maxLength schema;
     isOptional := true |}.

(** The length checks: an issue when [data.length < min] or
    [data.length > max]. *)
Definition lengthOk (schema : ZodString) (data : string) : bool :=
  match minLength schema with
  | Some n => negb (JS.length data <? n)%nat
  | None => true
  end
  && match maxLength schema with
     | Some n => negb (n <? JS.length data)%nat
     | None => true
     end.

(** [schema.safeParse(v)]: [None] on failure, otherwise the data
    ([None] for an accepted [undefined]). *)
Definition parse (schema : ZodString) (v : JS.value) : option (option string) :=
  match v with
  | JS.VUndefined => if isOptional schema then Some None else None
  | JS.VStr data => if lengthOk schema data then Some (Some data) else None
  | _ => None
  end.

End Zod.

(** What [McpServer], the class of the SDK that [server.ts] registers its
    tool with, throws for a call that it refuses before any callback
    runs.  The SDK is not part of the repository and builds these errors
    itself (the second from the issues that the validator reports), so
    they are taken as given. *)
Module McpServer.
Record t : Type := {
  toolNotFound : string -> JS.exn;
  invalidArguments : string -> option JS.object -> JS.exn
}.
End McpServer.

Module ServerTs.

(** The parameter schema of [todoist_get_tasks_by_filter]. *)
Definition querySchema : Zod.ZodString := Zod.max 1024 (Zod.min 1 Zod.z_string).

Definition langSchema : Zod.ZodString := Zod.optional Zod.z_string.

(** Validation of the arguments of a call against
    [z.object({ query, lang })]. *)
Definition validate (args : option JS.object) : option (string * option string) :=
  match args with
  | None => None
  | Some o =>
      match Zod.parse querySchema (JS.get o "query"),
            Zod.parse langSchema (JS.get o "lang") with
      | Some (Some query), Some lang => Some (query, lang)
      | _, _ => None
      end
  end.

(** [const priorityLabels = { 2: "Low", 3: "Medium", 4: "High" }]. *)
Definition priorityLabels : list (string * string) :=
  [("2", "Low"); ("3", "Medium"); ("4", "High")].

(** [priorityLabels[priority] || priority], interpolated. *)
Definition priorityText (priority : Z) : string :=
  match JS.own priorityLabels (JS.Z_toString priority) with
  | Some label => label
  | None => JS.Z_toString priority
  end.

(** The function mapped over [tasks] to build [formattedTasks]. *)
Definition formatTask (task : Task.t) : string :=
  let parts := ["• " ++ Task.content task ++ " (ID: " ++ Task.id task ++ ")"] in
  let parts :=
    if JS.truthy (Task.description task)
    then JS.push parts ("  Description: " ++ Index.show (Task.description task))
    else parts in
  let parts :=
    match Task.due task with
    | Some due => JS.push parts ("  Due: " ++ Due.string due)
    | None => parts
    end in
  let parts :=
    if (1 <? Task.priority task)%Z
    then JS.push parts ("  Priority: " ++ priorityText (Task.priority task))
    else parts in
  let parts :=
    match Task.labels task with
    | Some labels =>
        if (0 <? List.length labels)%nat
        then JS.push parts ("  Labels: " ++ String.concat ", " labels)
        else parts
    | None => parts
    end in
  let parts :=
    if JS.truthy (Task.projectId task)
    then JS.push parts ("  Project ID: " ++ Index.show (Task.projectId task))
    else parts in
  String.concat JS.nl parts.

Section Server.

Variable todoistClient : TodoistApi.t.

(** [lang], as the property of the object passed to the client. *)
Definition langValue (lang : option string) : JS.value :=
  match lang with
  | Some text => JS.VStr text
  | None => JS.VUndefined
  end.

(** The callback of the tool, on validated arguments. *)
Definition getTasksByFilter (query : string) (lang : option string)
  : JS.completion CallToolResult.t :=
  JS.try_catch
    (tasks <-
       TodoistApi.getTasks todoistClient
         (Some [("filter", JS.VStr query); ("lang", langValue lang)]) ;;
     if Nat.eqb (List.length tasks) 0
     then
       JS.Return
         (textResult ("No tasks found matching filter: " ++ JS.dq ++ query ++ JS.dq))
     else
       let formattedTasks := String.concat (JS.nl ++ JS.nl) (map formatTask tasks) in
       JS.Return
         (textResult
            ("Found " ++ JS.nat_toString (List.length tasks) ++ " tasks with filter "
             ++ JS.dq ++ query ++ JS.dq ++ ":" ++ JS.nl ++ JS.nl ++ formattedTasks)))
    (fun error =>
       JS.Return (errorResult ("Error fetching tasks: " ++ JS.errorText error))).

(** The library's errors for the calls it refuses. *)
Variable mcpServer : McpServer.t.

(** A tool call as [McpServer] serves it: the arguments are parsed
    against the declared schema and the callback runs on the parsed data
    only; a name that is not registered, or arguments that do not parse,
    are refused with the library's error. *)
Definition callTool (name : string) (args : option JS.object)
  : JS.completion CallToolResult.t :=
  if String.eqb name "todoist_get_tasks_by_filter"
  then
    match validate args with
    | Some (query, lang) => getTasksByFilter query lang
    | None => JS.Throw (McpServer.invalidArguments mcpServer name args)
    end
  else JS.Throw (McpServer.toolNotFound mcpServer name).

End Server.

End ServerTs.

(** ** The first version of [server.ts] (source part 002) *)

(** The server before the length bounds: the parameter is called
    [filter] and is any string; the callback is written as in
    [server.ts]. *)
Module ServerV1.

Definition filterSchema : Zod.ZodString := Zod.z_string.

Definition langSchema : Zod.ZodString := Zod.optional Zod.z_string.

(** Validation against [z.object({ filter, lang })]. *)
Definition validate (args : option JS.object) : option (string * option string) :=
  match args with
  | None => None
  | Some o =>
      match Zod.parse filterSchema (JS.get o "filter"),
            Zod.parse langSchema (JS.get o "lang") with
      | Some (Some filter), Some lang => Some (filter, lang)
      | _, _ => None
      end
  end.

Definition priorityLabels : list (string * string) :=
  [("2", "Low"); ("3", "Medium"); ("4", "High")].

Definition priorityText (priority : Z) : string :=
  match JS.own priorityLabels (JS.Z_toString priority) with
  | Some label => label
  | None => JS.Z_toString priority
  end.

Definition formatTask (task : Task.t) : string :=
  let parts := ["• " ++ Task.content task ++ " (ID: " ++ Task.id task ++ ")"] in
  let parts :=
    if JS.truthy (Task.description task)
    then JS.push parts ("  Description: " ++ Index.show (Task.description task))
    else parts in
  let parts :=
    match Task.due task with
    | Some due => JS.push parts ("  Due: " ++ Due.string due)
    | None => parts
    end in
  let parts :=
    if (1 <? Task.priority task)%Z
    then JS.push parts ("  Priority: " ++ priorityText (Task.priority task))
    else parts in
  let parts :=
    match Task.labels task with
    | Some labels =>
        if (0 <? List.length labels)%nat
        then JS.push parts ("  Labels: " ++ String.concat ", " labels)
        else parts
    | None => parts
    end in
  let parts :=
    if JS.truthy (Task.projectId task)
    then JS.push parts ("  Project ID: " ++ Index.show (Task.projectId task))
    else parts in
  String.concat JS.nl parts.

Section Server.

Variable todoistClient : TodoistApi.t.

Definition getTasksByFilter (filter : string) (lang : option string)
  : JS.completion CallToolResult.t :=
  JS.try_catch
    (tasks <-
       TodoistApi.getTasks todoistClient
         (Some [("filter", JS.VStr filter); ("lang", ServerTs.langValue lang)]) ;;
     if Nat.eqb (List.length tasks) 0
     then
       JS.Return
         (textResult ("No tasks found matching filter: " ++ JS.dq ++ filter ++ JS.dq))
     else
       let formattedTasks := String.concat (JS.nl ++ JS.nl) (map formatTask tasks) in
       JS.Return
         (textResult
            ("Found " ++ JS.nat_toString (List.length tasks) ++ " tasks with filter "
             ++ JS.dq ++ filter ++ JS.dq ++ ":" ++ JS.nl ++ JS.nl ++ formattedTasks)))
    (fun error =>
       JS.Return (errorResult ("Error fetching tasks: " ++ JS.errorText error))).

Variable mcpServer : McpServer.t.

(** A tool call as [McpServer] serves it (see [ServerTs.callTool]). *)
Definition callTool (name : string) (args : option JS.object)
  : JS.completion CallToolResult.t :=
  if String.eqb name "todoist_get_tasks_by_filter"
  then
    match validate args with
    | Some (filter, lang) => getTasksByFilter filter lang
    | None => JS.Throw (McpServer.invalidArguments mcpServer name args)
    end
  else JS.Throw (McpServer.toolNotFound mcpServer name).

End Server.

End ServerV1.

(** ** Texts as lines *)

Module Lines.

(** The text whose lines are [lines], each ended by a line feed. *)
Definition terminated (lines : list string) : string :=
  String.concat EmptyString (map (fun line => line ++ JS.nl) lines).

(** A task none of whose rendered fields holds a line feed. *)
Definition plainOption (field : option string) : bool :=
  match field with
  | Some text => JS.singleLine text
  | None => true
  end.

Definition plainTask (task : Task.t) : bool :=
  JS.singleLine (Task.id task) && JS.singleLine (Task.content task)
  && plainOption (Task.description task)
  && match Task.due task with
     | Some due => JS.singleLine (Due.string due)
     | None => true
     end
  && match Task.labels task with
     | Some labels => forallb JS.singleLine labels
     | None => true
     end
  && plainOption (Task.projectId task).

(** The lines of a group of tasks under a heading: none for an empty
    group, otherwise the heading, one line per task and a blank line. *)
Definition group (heading : string) (tasks : list Task.t) : list string :=
  match tasks with
  | [] => []
  | _ :: _ => (heading :: map Index.taskLine tasks ++ [EmptyString])%list
  end.

(** The lines of the daily view, as its layout reads. *)
Definition daily (todayTasks overdueTasks : list Task.t) : list string :=
  (["# Daily Planning Overview"; EmptyString]
   ++ group "## 🚨 Overdue Tasks" overdueTasks
   ++ ["## 📅 Today's Tasks"]
   ++ match todayTasks with
      | [] => ["No tasks scheduled for today."; EmptyString]
      | _ :: _ =>
          group "### 🔴 Urgent" (Index.urgent todayTasks)
          ++ group "### 🟡 High Priority" (Index.high todayTasks)
          ++ group "### ⚪ Normal" (Index.normal todayTasks)
      end
   ++ [Index.dailySummary overdueTasks todayTasks])%list.

(** The heading line of a date section of the weekly view. *)
Definition dateLine (todayIso : string) (weekdayName : string -> string)
  (date : string) : string :=
  "## " ++ weekdayName date ++ ", " ++ date
  ++ (if String.eqb date todayIso then " (Today)" else EmptyString).

(** The lines of the weekly view over the section dates [dates]: per
    date the heading, the tasks due on it in query order and a blank
    line. *)
Definition weekly (todayIso : string) (weekdayName : string -> string)
  (weekTasks : list Task.t) (dates : list string) : list string :=
  (["# Weekly Planning Overview"; EmptyString]
   ++ flat_map
        (fun date =>
           dateLine todayIso weekdayName date
           :: map Index.taskLine (Index.dueOn date weekTasks) ++ [EmptyString])
        dates
   ++ [Index.weeklyTotal weekTasks])%list.

(** 1 for a line that is there, 0 for one that is not. *)
Definition count (present : bool) : nat := if present then 1 else 0.

End Lines.

(** ** Sample data *)

Module Sample.

(** A task with the given content, priority and due date. *)
Definition task (content : string) (priority : Z) (date : option string) : Task.t :=
  {| Task.id := "7";
     Task.content := content;
     Task.description := None;
     Task.due :=
       match date with
       | Some day => Some {| Due.date := day; Due.string := day |}
       | None => None
       end;
     Task.priority := priority;
     Task.labels := Some [];
     Task.projectId := None;
     Task.url := "https://todoist.com/showTask?id=7" |}.

(** A remote client whose filtered queries answer by filter: [today],
    [overdue] and [week] for the three filters of the views, and whose
    other operations fail. *)
Definition client (today overdue week : JS.completion (list Task.t)) : TodoistApi.t :=
  let offline {A : Type} : JS.completion A := JS.Throw (JS.Error "offline") in
  {| TodoistApi.addTask := fun _ => offline;
     TodoistApi.getTasks := fun _ => week;
     TodoistApi.getTasksByFilter :=
       fun args =>
         match args with
         | Some o =>
             match JS.get o "filter" with
             | JS.VStr "today" => today
             | JS.VStr "overdue" => overdue
             | _ => week
             end
         | None => week
         end;
     TodoistApi.updateTask := fun _ _ => offline;
     TodoistApi.closeTask := fun _ => offline;
     TodoistApi.reopenTask := fun _ => offline;
     TodoistApi.deleteTask := fun _ => offline;
     TodoistApi.getProjects := fun _ => offline;
     TodoistApi.quickAddTask := fun _ => offline |}.

Definition today : list Task.t :=
  [task "Write report" 4 None; task "Call bank" 3 None; task "Water plants" 1 None].

(** Two dated tasks in descending date order and one without a date. *)
Definition week : list Task.t :=
  [task "B" 1 (Some "2024-05-02"); task "A" 1 (Some "2024-05-01"); task "C" 1 None].

(** [n] letters a. *)
Fixpoint letters (n : nat) : string :=
  match n with
  | O => EmptyString
  | S m => String "a" (letters m)
  end.

(** A client whose every query finds nothing. *)
Definition nothing : TodoistApi.t := client (JS.Return []) (JS.Return []) (JS.Return []).

(** A client whose every query finds the one task A of priority 4. *)
Definition oneTask : TodoistApi.t :=
  client (JS.Return [task "A" 4 None]) (JS.Return [task "A" 4 None])
    (JS.Return [task "A" 4 None]).

(** Every weekday is a Wednesday for this clock. *)
Definition weekdayName (date : string) : string := "Wednesday".

(** A client all of whose operations succeed: queries find the task A,
    changes answer with it, there is one shared project. *)
Definition online : TodoistApi.t :=
  {| TodoistApi.addTask := fun _ => JS.Return (task "A" 4 None);
     TodoistApi.getTasks := fun _ => JS.Return [task "A" 4 None];
     TodoistApi.getTasksByFilter := fun _ => JS.Return [task "A" 4 None];
     TodoistApi.updateTask := fun _ _ => JS.Return (task "A" 4 None);
     TodoistApi.closeTask := fun _ => JS.Return true;
     TodoistApi.reopenTask := fun _ => JS.Return true;
     TodoistApi.deleteTask := fun _ => JS.Return false;
     TodoistApi.getProjects :=
       fun _ => JS.Return [ {| Project.id := "1"; Project.name := "Home";
                               Project.isShared := true |} ];
     TodoistApi.quickAddTask := fun _ => JS.Return (task "A" 4 None) |}.

(** A library whose errors carry the name of the tool and nothing else. *)
Definition mcpServer : McpServer.t :=
  {| McpServer.toolNotFound :=
       fun name => JS.Error ("MCP error -32602: Tool " ++ name ++ " not found");
     McpServer.invalidArguments :=
       fun name _ => JS.Error ("MCP error -32602: Invalid arguments for tool " ++ name) |}.

End Sample.

(** * Properties *)

(** ** Sorting *)

Section Sorting.

Context {A : Type} (le : A -> A -> bool).

Abbreviation sorted := (StronglySorted (fun a b => le a b = true)).

Lemma insert_perm (x : A) (l : list A) : Permutation (x :: l) (JS.insert le x l).
Proof.
  induction l as [|y l IH]; simpl.
  - apply Permutation_refl.
  - destruct (le x y).
    + apply Permutation_refl.
    + eapply perm_trans; [apply perm_swap|]. now apply perm_skip.
Qed.

Lemma sortBy_perm (l : list A) : Permutation l (JS.sortBy le l).
Proof.
  induction l as [|x l IH]; simpl.
  - apply perm_nil.
  - eapply perm_trans; [apply perm_skip, IH | apply insert_perm].
Qed.

Hypothesis le_total : forall a b, le a b = true \/ le b a = true.
Hypothesis le_trans : forall a b c, le a b = true -> le b c = true -> le a c = true.

Lemma insert_sorted (x : A) (l : list A) : sorted l -> sorted (JS.insert le x l).
Proof.
  induction 1 as [|y l Hl IH Hy]; simpl.
  - constructor; constructor.
  - destruct (le x y) eqn:Hxy.
    + constructor; [now constructor|].
      constructor; [exact Hxy|].
      eapply Forall_impl; [|exact Hy]. intros z Hz. now apply le_trans with y.
    + constructor; [exact IH|].
      assert (Hyx : le y x = true) by (destruct (le_total x y); congruence).
      eapply Permutation_Forall; [apply insert_perm|].
      now constructor.
Qed.

Lemma sortBy_sorted (l : list A) : sorted (JS.sortBy le l).
Proof.
  induction l as [|x l IH]; simpl.
  - constructor.
  - now apply insert_sorted.
Qed.

Hypothesis le_antisym : forall a b, le a b = true -> le b a = true -> a = b.

(** A list has one sorted arrangement. *)
Lemma sorted_perm_unique (l l' : list A) :
  sorted l -> sorted l' -> Permutation l l' -> l = l'.
Proof.
  intros Hl. revert l'.
  induction Hl as [|x l Hl IH Hx]; intros l' Hl' Hp.
  - now apply Permutation_nil in Hp.
  - destruct Hl' as [|y l' Hl' Hy].
    + symmetry in Hp. now apply Permutation_nil in Hp.
    + assert (Hxy : x = y).
      { assert (Hin1 : In x (y :: l'))
          by (eapply Permutation_in; [exact Hp | now left]).
        assert (Hin2 : In y (x :: l))
          by (eapply Permutation_in; [symmetry; exact Hp | now left]).
        destruct Hin1 as [->|Hin1]; [reflexivity|].
        destruct Hin2 as [->|Hin2]; [reflexivity|].
        rewrite Forall_forall in Hx, Hy.
        apply le_antisym; auto. }
      subst y. f_equal. apply IH; [exact Hl'|].
      now apply Permutation_cons_inv with x.
Qed.

(** Sorting forgets the order of its input. *)
Lemma sortBy_perm_eq (l l' : list A) :
  Permutation l l' -> JS.sortBy le l = JS.sortBy le l'.
Proof.
  intros Hp. apply sorted_perm_unique; try apply sortBy_sorted.
  eapply perm_trans; [symmetry; apply sortBy_perm|].
  eapply perm_trans; [exact Hp | apply sortBy_perm].
Qed.

End Sorting.

(** ** The order of the default [sort()] *)

Lemma sort_byte_involutive (b : ascii) : JS.sort_byte (JS.sort_byte b) = b.
Proof.
  destruct b as [[] [] [] [] [] [] [] []]; reflexivity.
Qed.

Lemma sort_key_inj (a b : string) : JS.sort_key a = JS.sort_key b -> a = b.
Proof.
  revert b. induction a as [|x a IH]; intros [|y b] H; simpl in H;
    try discriminate; [reflexivity|].
  injection H as Hxy Hab. f_equal.
  - rewrite <- (sort_byte_involutive x), Hxy. apply sort_byte_involutive.
  - now apply IH.
Qed.

Lemma leb_total (a b : string) : JS.leb a b = true \/ JS.leb b a = true.
Proof.
  unfold JS.leb.
  destruct (String_as_OT.compare_spec (JS.sort_key a) (JS.sort_key b)) as [H|H|H];
    auto.
  right. unfold String_as_OT.lt in H. now rewrite H.
Qed.

Lemma leb_trans (a b c : string) :
  JS.leb a b = true -> JS.leb b c = true -> JS.leb a c = true.
Proof.
  unfold JS.leb.
  destruct (String_as_OT.compare_spec (JS.sort_key a) (JS.sort_key b)) as [H1|H1|H1];
    try discriminate;
    destruct (String_as_OT.compare_spec (JS.sort_key b) (JS.sort_key c)) as [H2|H2|H2];
    try discriminate; intros _ _.
  - rewrite H1, H2.
    destruct (String_as_OT.compare_spec (JS.sort_key c) (JS.sort_key c)) as [H|H|H];
      auto.
    exfalso. eapply (StrictOrder_Irreflexive (R := String_as_OT.lt)); exact H.
  - rewrite H1. unfold String_as_OT.lt in H2. now rewrite H2.
  - rewrite <- H2. unfold String_as_OT.lt in H1. now rewrite H1.
  - assert (H : String_as_OT.lt (JS.sort_key a) (JS.sort_key c))
      by (etransitivity; eassumption).
    unfold String_as_OT.lt in H. now rewrite H.
Qed.

Lemma leb_antisym (a b : string) :
  JS.leb a b = true -> JS.leb b a = true -> a = b.
Proof.
  unfold JS.leb.
  destruct (String_as_OT.compare_spec (JS.sort_key a) (JS.sort_key b)) as [H1|H1|H1];
    try discriminate; intros _.
  - intros _. now apply sort_key_inj.
  - destruct (String_as_OT.compare_spec (JS.sort_key b) (JS.sort_key a)) as [H2|H2|H2];
      try discriminate; intros _.
    + symmetry. now apply sort_key_inj.
    + exfalso. eapply (StrictOrder_Irreflexive (R := String_as_OT.lt)).
      etransitivity; eassumption.
Qed.

Lemma sort_byte_digit (c : ascii) : Index.isDigit c = true -> JS.sort_byte c = c.
Proof.
  destruct c as [[] [] [] [] [] [] [] []]; try discriminate; reflexivity.
Qed.

Lemma sort_key_calendar_date (date : string) :
  Index.isCalendarDate date = true -> JS.sort_key date = date.
Proof.
  intros H. unfold Index.isCalendarDate in H.
  repeat match type of H with
         | context [match ?x with _ => _ end] => destruct x; try discriminate H
         end.
  rewrite !andb_true_iff in H.
  destruct H as [[[[[[[H1 H2] H3] H4] H5] H6] H7] H8].
  cbn [JS.sort_key].
  change (JS.sort_byte "-") with "-"%char.
  rewrite !sort_byte_digit by assumption. reflexivity.
Qed.

(** On calendar dates the order of [sort()] is the lexicographic order
    of the characters. *)
Lemma leb_on_calendar_dates (a b : string) :
  Index.isCalendarDate a = true -> Index.isCalendarDate b = true ->
  JS.leb a b = match String_as_OT.compare a b with Gt => false | _ => true end.
Proof.
  intros Ha Hb. unfold JS.leb.
  now rewrite (sort_key_calendar_date a Ha), (sort_key_calendar_date b Hb).
Qed.

Lemma leb_iso_dates :
  JS.leb "2024-05-01" "2024-05-02" = true /\ JS.leb "2024-05-02" "2024-05-01" = false.
Proof. split; reflexivity. Qed.

Lemma sort_perm (l : list string) : Permutation l (JS.sort l).
Proof. apply sortBy_perm. Qed.

Lemma sort_sorted (l : list string) :
  StronglySorted (fun a b => JS.leb a b = true) (JS.sort l).
Proof. apply sortBy_sorted; [apply leb_total | apply leb_trans]. Qed.

Lemma sort_perm_eq (l l' : list string) :
  Permutation l l' -> JS.sort l = JS.sort l'.
Proof.
  apply sortBy_perm_eq; [apply leb_total | apply leb_trans | apply leb_antisym].
Qed.

(** ** The daily view *)

Lemma filter_split_perm {A : Type} (f : A -> bool) (l : list A) :
  Permutation (filter f l ++ filter (fun x => negb (f x)) l) l.
Proof.
  induction l as [|x l IH]; simpl.
  - apply perm_nil.
  - destruct (f x); simpl.
    + now apply perm_skip.
    + apply Permutation_sym. eapply perm_trans; [|apply Permutation_middle].
      apply perm_skip. now apply Permutation_sym.
Qed.

(** C1. On a today list whose priorities are all in {1,2,3,4}, the
    urgent (priority 4), high (priority 3) and normal (priority at most
    2) groups of the daily view are a disjoint cover: together they are
    a rearrangement of the today list, each group holds exactly the
    tasks of its priority, and every task of the list is in exactly one
    group. *)
Theorem daily_groups_partition_today (todayTasks : list Task.t)
  (Hpriority : Forall (fun t => In (Task.priority t) [1; 2; 3; 4]%Z) todayTasks) :
  Permutation
    (Index.urgent todayTasks ++ Index.high todayTasks ++ Index.normal todayTasks)%list
    todayTasks
  /\ (forall t, In t (Index.urgent todayTasks)
                <-> In t todayTasks /\ Task.priority t = 4%Z)
  /\ (forall t, In t (Index.high todayTasks)
                <-> In t todayTasks /\ Task.priority t = 3%Z)
  /\ (forall t, In t (Index.normal todayTasks)
                <-> In t todayTasks /\ (Task.priority t <= 2)%Z)
  /\ (forall t, In t todayTasks ->
        (In t (Index.urgent todayTasks)
         /\ ~ In t (Index.high todayTasks) /\ ~ In t (Index.normal todayTasks))
        \/ (~ In t (Index.urgent todayTasks)
            /\ In t (Index.high todayTasks) /\ ~ In t (Index.normal todayTasks))
        \/ (~ In t (Index.urgent todayTasks)
            /\ ~ In t (Index.high todayTasks) /\ In t (Index.normal todayTasks))).
Proof.
  assert (Hu : forall t, In t (Index.urgent todayTasks)
                         <-> In t todayTasks /\ Task.priority t = 4%Z).
  { intros t. unfold Index.urgent. rewrite filter_In, Z.eqb_eq. tauto. }
  assert (Hh : forall t, In t (Index.high todayTasks)
                         <-> In t todayTasks /\ Task.priority t = 3%Z).
  { intros t. unfold Index.high. rewrite filter_In, Z.eqb_eq. tauto. }
  assert (Hn : forall t, In t (Index.normal todayTasks)
                         <-> In t todayTasks /\ (Task.priority t <= 2)%Z).
  { intros t. unfold Index.normal. rewrite filter_In, Z.leb_le. tauto. }
  split; [|split; [exact Hu|split; [exact Hh|split; [exact Hn|]]]].
  - clear Hu Hh Hn. induction Hpriority as [|t l Ht _ IH]; [apply perm_nil|].
    unfold Index.urgent, Index.high, Index.normal in *. simpl.
    destruct Ht as [Ht|[Ht|[Ht|[Ht|[]]]]]; rewrite <- Ht; simpl.
    + eapply perm_trans; [|apply perm_skip, IH].
      rewrite !app_assoc. apply Permutation_sym, Permutation_middle.
    + eapply perm_trans; [|apply perm_skip, IH].
      rewrite !app_assoc. apply Permutation_sym, Permutation_middle.
    + eapply perm_trans; [|apply perm_skip, IH].
      apply Permutation_sym, Permutation_middle.
    + now apply perm_skip.
  - intros t Hin. rewrite !Hu, !Hh, !Hn.
    rewrite Forall_forall in Hpriority.
    destruct (Hpriority t Hin) as [Ht|[Ht|[Ht|[Ht|[]]]]]; rewrite <- Ht;
      [right; right | right; right | right; left | left];
      (split; [|split]); try (split; [exact Hin | lia]); intros [_ H]; lia.
Qed.

Lemma daily_groups_partition_today_witness :
  Permutation
    (Index.urgent Sample.today ++ Index.high Sample.today
     ++ Index.normal Sample.today)%list
    Sample.today.
Proof.
  apply (daily_groups_partition_today Sample.today).
  repeat (apply Forall_cons; [simpl; lia|]). apply Forall_nil.
Defined.

(** C2. When the "overdue" query fails, whatever the "today" query does,
    and likewise when the "today" query fails, the daily view throws:
    the error is that of a failing query, no document is returned, and
    the resource handler answers with the error text alone. *)
Theorem daily_view_fails_when_a_query_fails
  (todoistClient : TodoistApi.t) (overdueFirst : bool)
  (todayIso : string) (weekdayName : string -> string) :
  (exists e, TodoistApi.getTasksByFilter todoistClient Index.overdueFilter = JS.Throw e)
  \/ (exists e, TodoistApi.getTasksByFilter todoistClient Index.todayFilter = JS.Throw e) ->
  exists e,
    Index.generateDailyPlanningView todoistClient overdueFirst = JS.Throw e
    /\ (TodoistApi.getTasksByFilter todoistClient Index.overdueFilter = JS.Throw e
        \/ TodoistApi.getTasksByFilter todoistClient Index.todayFilter = JS.Throw e)
    /\ Index.readResource todoistClient overdueFirst todayIso weekdayName
         "todoist://planning/daily"
       = JS.Return
           (Index.markdown "todoist://planning/daily" ("Error: " ++ JS.errorText e)).
Proof.
  intros H. unfold Index.readResource. simpl.
  unfold Index.generateDailyPlanningView.
  destruct (TodoistApi.getTasksByFilter todoistClient Index.todayFilter)
    as [today|e1] eqn:Htoday;
    destruct (TodoistApi.getTasksByFilter todoistClient Index.overdueFilter)
      as [overdue|e2] eqn:Hoverdue; simpl.
  - destruct H as [[e H]|[e H]]; discriminate H.
  - exists e2. auto.
  - exists e1. auto.
  - destruct overdueFirst; [exists e2 | exists e1]; auto.
Qed.

Lemma daily_view_fails_when_a_query_fails_witness :
  exists e,
    Index.generateDailyPlanningView
      (Sample.client (JS.Return Sample.today) (JS.Throw (JS.Error "timeout")) (JS.Return []))
      false = JS.Throw e.
Proof.
  destruct (daily_view_fails_when_a_query_fails
              (Sample.client (JS.Return Sample.today) (JS.Throw (JS.Error "timeout"))
                 (JS.Return []))
              false "2024-05-01" Sample.weekdayName) as [e [He _]].
  - left. exists (JS.Error "timeout"). reflexivity.
  - exists e. exact He.
Defined.

(** ** Lines of a document *)

Lemma append_assoc (a b c : string) : (a ++ b) ++ c = a ++ b ++ c.
Proof.
  induction a as [|x a IH]; simpl; [reflexivity | now rewrite IH].
Qed.

Lemma append_empty_r (a : string) : a ++ EmptyString = a.
Proof.
  induction a as [|x a IH]; simpl; [reflexivity | now rewrite IH].
Qed.

Lemma singleLine_app (a b : string) :
  JS.singleLine (a ++ b) = JS.singleLine a && JS.singleLine b.
Proof.
  induction a as [|x a IH]; simpl; [reflexivity|].
  rewrite IH. now rewrite andb_assoc.
Qed.

Lemma singleLine_uint (d : Decimal.uint) :
  JS.singleLine (NilEmpty.string_of_uint d) = true.
Proof.
  induction d; simpl; auto.
Qed.

Lemma singleLine_nat_toString (n : nat) : JS.singleLine (JS.nat_toString n) = true.
Proof.
  unfold JS.nat_toString, NilZero.string_of_uint.
  destruct (Nat.to_uint n) eqn:E; try reflexivity;
    rewrite <- E; apply singleLine_uint.
Qed.

Lemma lines_from_singleLine (s cur : string) :
  JS.singleLine s = true -> JS.lines_from cur s = [cur ++ s].
Proof.
  revert cur. induction s as [|c s IH]; intros cur H; simpl in *.
  - now rewrite append_empty_r.
  - apply andb_true_iff in H. destruct H as [Hc Hs].
    apply negb_true_iff in Hc. rewrite Hc, (IH _ Hs), append_assoc. reflexivity.
Qed.

Lemma lines_from_not_nil (s cur : string) : JS.lines_from cur s <> [].
Proof.
  revert cur. induction s as [|c s IH]; intros cur; simpl; [discriminate|].
  destruct (Ascii.eqb c "010"); [discriminate | apply IH].
Qed.

(** The text after the last line feed of a document is its last line. *)
Lemma last_line (body final cur : string) :
  JS.singleLine final = true ->
  last (JS.lines_from cur (body ++ JS.nl ++ final)) EmptyString = final.
Proof.
  intros Hfinal. revert cur.
  induction body as [|c body IH]; intros cur; simpl.
  - now rewrite (lines_from_singleLine _ _ Hfinal).
  - simpl in IH. destruct (Ascii.eqb c "010").
    + specialize (IH EmptyString).
      destruct (JS.lines_from EmptyString (body ++ String "010" final)) eqn:E.
      * now apply lines_from_not_nil in E.
      * exact IH.
    + apply IH.
Qed.

(** A text that ends with a line feed. *)
Lemma ends_nl_base : exists body, JS.nl = body ++ JS.nl.
Proof. now exists EmptyString. Qed.

Lemma ends_nl_app (a b : string) :
  (exists body, b = body ++ JS.nl) -> exists body, a ++ b = body ++ JS.nl.
Proof.
  intros [body ->]. exists (a ++ body). now rewrite append_assoc.
Qed.

Lemma daily_document_shape (todayTasks overdueTasks : list Task.t) :
  exists body,
    Index.dailyPlanningDocument todayTasks overdueTasks
    = body ++ JS.nl ++ Index.dailySummary overdueTasks todayTasks.
Proof.
  unfold Index.dailyPlanningDocument. cbv zeta.
  match goal with
  | |- exists body, ?content ++ _ = _ =>
      assert (H : exists body, content = body ++ JS.nl)
  end.
  { repeat match goal with
           | |- context [if ?c then _ else _] => destruct c
           end;
      repeat (apply ends_nl_app); apply ends_nl_base. }
  destruct H as [body ->]. exists body. apply append_assoc.
Qed.

Lemma dailySummary_singleLine (overdueTasks todayTasks : list Task.t) :
  JS.singleLine (Index.dailySummary overdueTasks todayTasks) = true.
Proof.
  unfold Index.dailySummary.
  rewrite !singleLine_app, !singleLine_nat_toString. reflexivity.
Qed.

(** C9. Whatever the two queries return, empty lists included, the last
    line of the daily view is the summary with the number of overdue
    tasks and the number of today tasks.  With no overdue task and one
    today task of content "A" and priority 4, the view is: title, no
    overdue section, the today heading, the urgent heading followed by
    the single line "- A", and the summary "0 overdue, 1 today". *)
Theorem daily_view_ends_with_summary
  (todoistClient : TodoistApi.t) (overdueFirst : bool)
  (todayTasks overdueTasks : list Task.t)
  (Htoday : TodoistApi.getTasksByFilter todoistClient Index.todayFilter
            = JS.Return todayTasks)
  (Hoverdue : TodoistApi.getTasksByFilter todoistClient Index.overdueFilter
              = JS.Return overdueTasks) :
  (exists document,
     Index.generateDailyPlanningView todoistClient overdueFirst = JS.Return document
     /\ last (JS.lines document) EmptyString
        = "**Summary:** " ++ JS.nat_toString (List.length overdueTasks) ++ " overdue, "
          ++ JS.nat_toString (List.length todayTasks) ++ " today")
  /\ (forall task,
        todayTasks = [task] -> overdueTasks = [] ->
        Task.content task = "A" -> Task.priority task = 4%Z ->
        exists document,
          Index.generateDailyPlanningView todoistClient overdueFirst = JS.Return document
          /\ JS.lines document
             = ["# Daily Planning Overview"; EmptyString; "## 📅 Today's Tasks";
                "### 🔴 Urgent"; "- A"; EmptyString;
                "**Summary:** 0 overdue, 1 today"]
          /\ JS.includes "Overdue Tasks" document = false
          /\ count_occ string_dec (JS.lines document) "- A" = 1).
Proof.
  unfold Index.generateDailyPlanningView. rewrite Htoday, Hoverdue. simpl.
  split.
  - eexists. split; [reflexivity|].
    destruct (daily_document_shape todayTasks overdueTasks) as [body ->].
    unfold JS.lines. rewrite last_line by apply dailySummary_singleLine.
    reflexivity.
  - intros task -> -> Hcontent Hpriority.
    eexists. split; [reflexivity|].
    destruct task as [id content description due priority labels projectId url].
    simpl in Hcontent, Hpriority. subst content priority.
    repeat split; reflexivity.
Qed.

Lemma daily_view_ends_with_summary_witness :
  exists document,
    Index.generateDailyPlanningView
      (Sample.client (JS.Return [Sample.task "A" 4 None]) (JS.Return []) (JS.Return []))
      false = JS.Return document
    /\ last (JS.lines document) EmptyString = "**Summary:** 0 overdue, 1 today".
Proof.
  exact (proj1 (daily_view_ends_with_summary
                  (Sample.client (JS.Return [Sample.task "A" 4 None]) (JS.Return [])
                     (JS.Return []))
                  false [Sample.task "A" 4 None] [] eq_refl eq_refl)).
Defined.

(** ** Objects used as dictionaries *)

Lemma keys_perm {A : Type} (o : list (string * A)) :
  Permutation (JS.keys o) (map fst o).
Proof.
  unfold JS.keys.
  eapply perm_trans; [|apply (filter_split_perm JS.isArrayIndex)].
  apply Permutation_app_tail, Permutation_sym, sortBy_perm.
Qed.

Lemma own_None {A : Type} (o : list (string * A)) (key : string) :
  JS.own o key = None <-> ~ In key (map fst o).
Proof.
  induction o as [|[k v] o IH]; simpl.
  - tauto.
  - destruct (String.eqb k key) eqn:E.
    + apply String.eqb_eq in E. split; [discriminate | intros H; exfalso; auto].
    + apply String.eqb_neq in E. rewrite IH. tauto.
Qed.

Lemma own_In {A : Type} (o : list (string * A)) (key : string) :
  In key (map fst o) -> exists v, JS.own o key = Some v.
Proof.
  intros H. destruct (JS.own o key) as [v|] eqn:E; [now exists v|].
  now apply own_None in E.
Qed.

Lemma update_keys {A : Type} (o : list (string * A)) (key : string) (f : A -> A) :
  map fst (JS.update o key f) = map fst o.
Proof.
  induction o as [|[k v] o IH]; simpl; [reflexivity|].
  destruct (String.eqb k key); simpl; [reflexivity | now rewrite IH].
Qed.

(** Updating the array of an own key adds to the values what the update
    adds to that array. *)
Lemma update_push_values (o : Index.TasksByDate) (key : string) (task : Task.t) :
  In key (map fst o) ->
  Permutation (flat_map snd (JS.update o key (fun tasks => JS.push tasks task)))
    (task :: flat_map snd o).
Proof.
  induction o as [|[k v] o IH]; simpl; [tauto|].
  intros H. destruct (String.eqb k key) eqn:E; simpl.
  - unfold JS.push. rewrite <- app_assoc. simpl.
    apply Permutation_sym, Permutation_middle.
  - apply String.eqb_neq in E. destruct H as [H|H]; [contradiction|].
    eapply perm_trans; [apply Permutation_app_head, IH, H|].
    apply Permutation_sym, Permutation_middle.
Qed.

Lemma flat_map_ext_In {A B : Type} (f g : A -> list B) (l : list A) :
  (forall a, In a l -> f a = g a) -> flat_map f l = flat_map g l.
Proof.
  induction l as [|a l IH]; simpl; intros H; [reflexivity|].
  rewrite (H a) by now left. f_equal. apply IH. intros b Hb. apply H. now right.
Qed.

(** With distinct keys, reading every key gives back every value. *)
Lemma tasksOn_all (o : Index.TasksByDate) :
  NoDup (map fst o) -> flat_map (Index.tasksOn o) (map fst o) = flat_map snd o.
Proof.
  induction o as [|[k v] o IH]; simpl; [reflexivity|].
  intros H. inversion H as [|? ? Hk Ho]; subst.
  unfold Index.tasksOn at 1. simpl. rewrite String.eqb_refl. f_equal.
  rewrite <- (IH Ho). apply flat_map_ext_In.
  intros key Hkey. unfold Index.tasksOn. simpl.
  destruct (String.eqb k key) eqn:E; [|reflexivity].
  apply String.eqb_eq in E. subst. contradiction.
Qed.

Lemma flat_map_perm {A B : Type} (f : A -> list B) (l l' : list A) :
  Permutation l l' -> Permutation (flat_map f l) (flat_map f l').
Proof.
  induction 1; simpl.
  - apply perm_nil.
  - now apply Permutation_app_head.
  - rewrite !app_assoc. apply Permutation_app_tail, Permutation_app_comm.
  - eapply perm_trans; eassumption.
Qed.

(** ** Grouping by date *)

Lemma in_keys_own {A : Type} (o : list (string * A)) (key : string) (v : A) :
  JS.own o key = Some v -> In key (map fst o).
Proof.
  intros H. destruct (in_dec string_dec key (map fst o)) as [Hin|Hin]; [exact Hin|].
  apply own_None in Hin. congruence.
Qed.

(** One step of the grouping that returns: the keys grow by the date of
    the task, stay distinct and stay clear of inherited names, and the
    grouped tasks grow by the task if it has a date. *)
Lemma groupTask_return (o o' : Index.TasksByDate) (task : Task.t) :
  Index.groupTask o task = JS.Return o' ->
  (forall k, In k (map fst o') <-> In k (map fst o) \/ In k (Index.dueDates [task]))
  /\ (NoDup (map fst o) -> NoDup (map fst o'))
  /\ Permutation (flat_map snd o') (Index.dated [task] ++ flat_map snd o)
  /\ ((forall k, In k (map fst o) -> JS.inherited k = false) ->
      forall k, In k (map fst o') -> JS.inherited k = false).
Proof.
  unfold Index.groupTask, Index.dueDates, Index.dated. simpl.
  destruct (Task.due task) as [due|]; simpl.
  - destruct (JS.own o (Due.date due)) as [tasks|] eqn:Eown.
    + intros H. injection H as <-. apply in_keys_own in Eown.
      rewrite update_keys. repeat split; auto.
      * intros [H|[<-|[]]]; auto.
      * now apply update_push_values.
    + destruct (JS.inherited (Due.date due)) eqn:Einh; [discriminate|].
      intros H. injection H as <-. apply own_None in Eown.
      unfold JS.push. rewrite map_app, flat_map_app. simpl.
      repeat split.
      * rewrite in_app_iff. simpl. tauto.
      * rewrite in_app_iff. simpl. tauto.
      * intros Hnd. apply NoDup_rev in Hnd.
        rewrite <- (rev_involutive (map fst o ++ [Due.date due])).
        apply NoDup_rev. rewrite rev_app_distr. simpl. constructor; [|exact Hnd].
        now rewrite <- in_rev.
      * apply Permutation_sym, Permutation_cons_append.
      * intros Hclear k Hk. apply in_app_iff in Hk.
        destruct Hk as [Hk|[<-|[]]]; auto.
  - intros H. injection H as <-. repeat split; auto; simpl; tauto.
Qed.

Lemma groupTask_throw (o : Index.TasksByDate) (task : Task.t) (e : JS.exn) :
  Index.groupTask o task = JS.Throw e ->
  e = Index.pushIsNotAFunction
  /\ exists k, In k (Index.dueDates [task]) /\ JS.inherited k = true.
Proof.
  unfold Index.groupTask, Index.dueDates. simpl.
  destruct (Task.due task) as [due|]; [|discriminate].
  destruct (JS.own o (Due.date due)); [discriminate|].
  destruct (JS.inherited (Due.date due)) eqn:Einh; [|discriminate].
  intros H. injection H as <-. split; [reflexivity|].
  exists (Due.date due). simpl. auto.
Qed.

Lemma groupTask_total (o : Index.TasksByDate) (task : Task.t) :
  (forall k, In k (Index.dueDates [task]) -> JS.inherited k = false) ->
  exists o', Index.groupTask o task = JS.Return o'.
Proof.
  unfold Index.groupTask, Index.dueDates. simpl.
  destruct (Task.due task) as [due|]; [|eauto].
  intros H. destruct (JS.own o (Due.date due)); [eauto|].
  rewrite (H (Due.date due)) by (simpl; auto). eauto.
Qed.

Lemma dueDates_cons (task : Task.t) (l : list Task.t) :
  Index.dueDates (task :: l) = (Index.dueDates [task] ++ Index.dueDates l)%list.
Proof.
  unfold Index.dueDates. simpl. now rewrite app_nil_r.
Qed.

Lemma dated_cons (task : Task.t) (l : list Task.t) :
  Index.dated (task :: l) = (Index.dated [task] ++ Index.dated l)%list.
Proof.
  unfold Index.dated. simpl.
  destruct (Task.due task); reflexivity.
Qed.

Lemma grouping_return (l : list Task.t) (o o' : Index.TasksByDate) :
  Index.forEach Index.groupTask l o = JS.Return o' ->
  (forall k, In k (map fst o') <-> In k (map fst o) \/ In k (Index.dueDates l))
  /\ (NoDup (map fst o) -> NoDup (map fst o'))
  /\ Permutation (flat_map snd o') (Index.dated l ++ flat_map snd o)
  /\ ((forall k, In k (map fst o) -> JS.inherited k = false) ->
      forall k, In k (map fst o') -> JS.inherited k = false).
Proof.
  revert o. induction l as [|task l IH]; intros o.
  - simpl. intros H. injection H as <-. repeat split; auto; simpl; tauto.
  - rewrite dueDates_cons, dated_cons. cbn [Index.forEach]. unfold JS.bind.
    destruct (Index.groupTask o task) as [o1|e] eqn:Estep; [|discriminate].
    intros H. apply IH in H. apply groupTask_return in Estep.
    destruct H as (Hk & Hnd & Hperm & Hclear).
    destruct Estep as (Hk1 & Hnd1 & Hperm1 & Hclear1).
    repeat split; auto.
    + intros H. apply Hk in H. rewrite in_app_iff.
      destruct H as [H|H]; auto. apply Hk1 in H. tauto.
    + intros H. apply Hk. rewrite in_app_iff in H.
      destruct H as [H|[H|H]]; auto; left; apply Hk1; auto.
    + eapply perm_trans; [exact Hperm|].
      eapply perm_trans; [apply Permutation_app_head, Hperm1|].
      rewrite !app_assoc. apply Permutation_app_tail, Permutation_app_comm.
Qed.

Lemma grouping_throw (l : list Task.t) (o : Index.TasksByDate) (e : JS.exn) :
  Index.forEach Index.groupTask l o = JS.Throw e ->
  e = Index.pushIsNotAFunction
  /\ exists k, In k (Index.dueDates l) /\ JS.inherited k = true.
Proof.
  revert o. induction l as [|task l IH]; intros o; [discriminate|].
  rewrite dueDates_cons. cbn [Index.forEach]. unfold JS.bind.
  destruct (Index.groupTask o task) as [o1|e1] eqn:Estep.
  - intros H. apply IH in H. destruct H as [-> [k [Hk Hinh]]].
    split; [reflexivity|]. exists k. rewrite in_app_iff. auto.
  - intros H. injection H as <-. apply groupTask_throw in Estep.
    destruct Estep as [-> [k [Hk Hinh]]].
    split; [reflexivity|]. exists k. rewrite in_app_iff. auto.
Qed.

Lemma grouping_total (l : list Task.t) (o : Index.TasksByDate) :
  (forall k, In k (Index.dueDates l) -> JS.inherited k = false) ->
  exists o', Index.forEach Index.groupTask l o = JS.Return o'.
Proof.
  revert o. induction l as [|task l IH]; intros o H; [simpl; eauto|].
  rewrite dueDates_cons in H. cbn [Index.forEach]. unfold JS.bind.
  destruct (groupTask_total o task) as [o1 ->].
  - intros k Hk. apply H. rewrite in_app_iff. auto.
  - apply IH. intros k Hk. apply H. rewrite in_app_iff. auto.
Qed.

(** What [groupByDate] returns: the distinct date keys of the dated
    tasks, none of them inherited, holding exactly the dated tasks. *)
Lemma groupByDate_return (weekTasks : list Task.t) (tasksByDate : Index.TasksByDate) :
  Index.groupByDate weekTasks = JS.Return tasksByDate ->
  (forall k, In k (map fst tasksByDate) <-> In k (Index.dueDates weekTasks))
  /\ NoDup (map fst tasksByDate)
  /\ Permutation (flat_map snd tasksByDate) (Index.dated weekTasks)
  /\ (forall k, In k (Index.dueDates weekTasks) -> JS.inherited k = false).
Proof.
  intros H. apply grouping_return in H. destruct H as (Hk & Hnd & Hperm & Hclear).
  simpl in *. rewrite app_nil_r in Hperm. repeat split.
  - intros Hin. apply Hk in Hin. tauto.
  - intros Hin. apply Hk. auto.
  - apply Hnd. constructor.
  - exact Hperm.
  - intros k Hin. apply Hclear; [tauto|]. apply Hk. auto.
Qed.

(** A calendar date is never the name of an inherited property. *)
Lemma calendar_date_not_inherited (date : string) :
  Index.isCalendarDate date = true -> JS.inherited date = false.
Proof.
  destruct date as [|c rest]; [discriminate|].
  intros H.
  assert (Hc : Index.isDigit c = true).
  { unfold Index.isCalendarDate in H.
    repeat match type of H with
           | context [match ?x with _ => _ end] => destruct x; try discriminate H
           end.
    rewrite !andb_true_iff in H. tauto. }
  clear H. unfold JS.inherited, JS.objectPrototypeKeys.
  destruct c as [[] [] [] [] [] [] [] []]; try discriminate Hc; reflexivity.
Qed.

Lemma dueDates_perm (l l' : list Task.t) :
  Permutation l l' ->
  forall k, In k (Index.dueDates l') <-> In k (Index.dueDates l).
Proof.
  intros Hp k. unfold Index.dueDates. split; apply Permutation_in.
  - apply flat_map_perm. now apply Permutation_sym.
  - now apply flat_map_perm.
Qed.

(** ** The weekly view *)

Lemma sortedDates_perm (o : Index.TasksByDate) :
  Permutation (Index.sortedDates o) (map fst o).
Proof.
  unfold Index.sortedDates.
  eapply perm_trans; [apply Permutation_sym, sort_perm | apply keys_perm].
Qed.

Lemma strictly_sorted (l : list string) :
  StronglySorted (fun a b => JS.leb a b = true) l -> NoDup l ->
  StronglySorted (fun a b => JS.leb a b = true /\ a <> b) l.
Proof.
  induction 1 as [|x l Hl IH Hx]; intros Hnd; constructor.
  - apply IH. now inversion Hnd.
  - inversion Hnd as [|? ? Hnotin _]; subst.
    rewrite Forall_forall in *. intros y Hy. split; [now apply Hx|].
    intros ->. contradiction.
Qed.

(** The section order depends on the set of date keys only. *)
Lemma sectionDates_same_keys (weekTasks weekTasks' : list Task.t) :
  (forall k, In k (Index.dueDates weekTasks') <-> In k (Index.dueDates weekTasks)) ->
  Index.sectionDates weekTasks' = Index.sectionDates weekTasks.
Proof.
  intros Hsame. unfold Index.sectionDates.
  destruct (Index.groupByDate weekTasks) as [o|e] eqn:E;
    destruct (Index.groupByDate weekTasks') as [o'|e'] eqn:E'; simpl.
  - apply groupByDate_return in E. apply groupByDate_return in E'.
    destruct E as (Hk & Hnd & _). destruct E' as (Hk' & Hnd' & _).
    f_equal. unfold Index.sortedDates. apply sort_perm_eq.
    eapply perm_trans; [apply keys_perm|].
    eapply perm_trans; [|apply Permutation_sym, keys_perm].
    apply NoDup_Permutation; auto.
    intros k. rewrite Hk, Hk'. apply Hsame.
  - apply groupByDate_return in E. destruct E as (_ & _ & _ & Hclear).
    apply grouping_throw in E'. destruct E' as [_ [k [Hk Hinh]]].
    apply Hsame in Hk. apply Hclear in Hk. congruence.
  - apply groupByDate_return in E'. destruct E' as (_ & _ & _ & Hclear).
    apply grouping_throw in E. destruct E as [_ [k [Hk Hinh]]].
    apply Hsame in Hk. apply Hclear in Hk. congruence.
  - apply grouping_throw in E. apply grouping_throw in E'.
    destruct E as [-> _]. destruct E' as [-> _]. reflexivity.
Qed.

Lemma concat_empty_cons (x : string) (l : list string) :
  String.concat EmptyString (x :: l) = x ++ String.concat EmptyString l.
Proof.
  destruct l; simpl; [now rewrite append_empty_r | reflexivity].
Qed.

(** The loop over the sorted dates appends the date sections. *)
Lemma render_dates (todayIso : string) (weekdayName : string -> string)
  (o : Index.TasksByDate) (dates : list string) (content : string) :
  (forall date, In date dates -> In date (map fst o)) ->
  Index.forEach (Index.renderDate todayIso weekdayName o) dates content
  = JS.Return
      (content
       ++ String.concat EmptyString
            (map (fun date =>
                    Index.dateSection todayIso weekdayName date (Index.tasksOn o date))
               dates)).
Proof.
  revert content. induction dates as [|date dates IH]; intros content Hown.
  - simpl. now rewrite append_empty_r.
  - cbn [Index.forEach map]. rewrite concat_empty_cons.
    unfold Index.renderDate at 1, Index.tasksOn at 1.
    destruct (own_In o date) as [tasks ->]; [apply Hown; now left|].
    simpl. rewrite IH by (intros d Hd; apply Hown; now right).
    now rewrite append_assoc.
Qed.

(** The weekly document on a non-empty query result that groups. *)
Lemma weekly_document (todayIso : string) (weekdayName : string -> string)
  (weekTasks : list Task.t) (tasksByDate : Index.TasksByDate) :
  weekTasks <> [] ->
  Index.groupByDate weekTasks = JS.Return tasksByDate ->
  Index.weeklyPlanningDocument todayIso weekdayName weekTasks
  = JS.Return
      (("# Weekly Planning Overview" ++ JS.nl ++ JS.nl)
       ++ Index.dateSections todayIso weekdayName tasksByDate
       ++ Index.weeklyTotal weekTasks).
Proof.
  intros Hne Hgroup. unfold Index.weeklyPlanningDocument.
  destruct weekTasks as [|task rest]; [contradiction|].
  cbn [List.length Nat.eqb]. rewrite Hgroup. cbn [JS.bind].
  rewrite render_dates.
  - cbn [JS.bind]. unfold Index.dateSections. now rewrite append_assoc.
  - intros date Hdate. eapply Permutation_in; [apply sortedDates_perm | exact Hdate].
Qed.

(** The date sections show exactly the dated tasks. *)
Lemma renderedTasks_perm (weekTasks : list Task.t) (tasksByDate : Index.TasksByDate) :
  Index.groupByDate weekTasks = JS.Return tasksByDate ->
  Permutation (Index.renderedTasks tasksByDate) (Index.dated weekTasks).
Proof.
  intros H. apply groupByDate_return in H. destruct H as (_ & Hnd & Hperm & _).
  unfold Index.renderedTasks.
  eapply perm_trans; [apply flat_map_perm, sortedDates_perm|].
  now rewrite tasksOn_all.
Qed.

(** C3. The date sections of the weekly view are rendered in strictly
    ascending order of their date keys (the order of the default
    [sort()], which on calendar dates is the lexicographic one), one
    section per distinct date key.  That order depends on the set of date
    keys only: a task list with the same date keys, in particular any
    rearrangement of the list, gives the same section order.  On calendar
    dates the grouping returns and the document is the title, the
    sections in that order and the total. *)
Theorem weekly_sections_sorted_by_date
  (todayIso : string) (weekdayName : string -> string) (weekTasks : list Task.t) :
  (forall dates,
     Index.sectionDates weekTasks = JS.Return dates ->
     StronglySorted (fun a b => JS.leb a b = true /\ a <> b) dates
     /\ (forall k, In k dates <-> In k (Index.dueDates weekTasks)))
  /\ (forall weekTasks',
        (forall k, In k (Index.dueDates weekTasks') <-> In k (Index.dueDates weekTasks)) ->
        Index.sectionDates weekTasks' = Index.sectionDates weekTasks)
  /\ (forall weekTasks',
        Permutation weekTasks weekTasks' ->
        Index.sectionDates weekTasks' = Index.sectionDates weekTasks)
  /\ (Forall (fun k => Index.isCalendarDate k = true) (Index.dueDates weekTasks) ->
      weekTasks <> [] ->
      exists tasksByDate,
        Index.groupByDate weekTasks = JS.Return tasksByDate
        /\ Index.sectionDates weekTasks = JS.Return (Index.sortedDates tasksByDate)
        /\ Index.weeklyPlanningDocument todayIso weekdayName weekTasks
           = JS.Return
               (("# Weekly Planning Overview" ++ JS.nl ++ JS.nl)
                ++ Index.dateSections todayIso weekdayName tasksByDate
                ++ Index.weeklyTotal weekTasks)).
Proof.
  split; [|split; [|split]].
  - unfold Index.sectionDates. intros dates H.
    destruct (Index.groupByDate weekTasks) as [o|e] eqn:E; [|discriminate].
    injection H as <-. apply groupByDate_return in E.
    destruct E as (Hk & Hnd & _). split.
    + apply strictly_sorted; [apply sort_sorted|].
      eapply Permutation_NoDup; [apply Permutation_sym, sortedDates_perm | exact Hnd].
    + intros k. rewrite <- Hk. split; apply Permutation_in.
      * apply sortedDates_perm.
      * apply Permutation_sym, sortedDates_perm.
  - apply sectionDates_same_keys.
  - intros weekTasks' Hp. apply sectionDates_same_keys. now apply dueDates_perm.
  - intros Hdates Hne.
    destruct (grouping_total weekTasks []) as [o Ho].
    { rewrite Forall_forall in Hdates. intros k Hk.
      now apply calendar_date_not_inherited, Hdates. }
    exists o. split; [exact Ho|]. split.
    + unfold Index.sectionDates, Index.groupByDate. now rewrite Ho.
    + now apply weekly_document.
Qed.

(** The scenario of C3: tasks due on 2024-05-02 and 2024-05-01, in that
    order or in the other, give the sections 2024-05-01, 2024-05-02. *)
Lemma weekly_sections_sorted_by_date_witness :
  Index.sectionDates Sample.week = JS.Return ["2024-05-01"; "2024-05-02"]
  /\ Index.sectionDates (List.rev Sample.week) = Index.sectionDates Sample.week.
Proof.
  split; [reflexivity|].
  apply (weekly_sections_sorted_by_date "2024-05-01" Sample.weekdayName Sample.week).
  apply Permutation_rev.
Defined.

Lemma weeklyTotal_singleLine (weekTasks : list Task.t) :
  JS.singleLine (Index.weeklyTotal weekTasks) = true.
Proof.
  unfold Index.weeklyTotal.
  rewrite !singleLine_app, !singleLine_nat_toString. reflexivity.
Qed.

Lemma sections_end_nl (todayIso : string) (weekdayName : string -> string)
  (o : Index.TasksByDate) (dates : list string) (content : string) :
  (exists body, content = body ++ JS.nl) ->
  exists body,
    content
    ++ String.concat EmptyString
         (map (fun date =>
                 Index.dateSection todayIso weekdayName date (Index.tasksOn o date))
            dates)
    = body ++ JS.nl.
Proof.
  revert content. induction dates as [|date dates IH]; intros content H.
  - simpl. now rewrite append_empty_r.
  - cbn [map]. rewrite concat_empty_cons, <- append_assoc. apply IH.
    unfold Index.dateSection. repeat apply ends_nl_app. apply ends_nl_base.
Qed.

(** The weekly view on a non-empty query result whose date keys are not
    names inherited from [Object.prototype]: the document, its last line
    and the tasks of its sections. *)
Lemma weekly_view_on_own_keys
  (todoistClient : TodoistApi.t) (todayIso : string) (weekdayName : string -> string)
  (weekTasks : list Task.t) :
  TodoistApi.getTasksByFilter todoistClient Index.weekFilter = JS.Return weekTasks ->
  weekTasks <> [] ->
  Forall (fun k => JS.inherited k = false) (Index.dueDates weekTasks) ->
  exists tasksByDate document,
    Index.groupByDate weekTasks = JS.Return tasksByDate
    /\ Index.generateWeeklyPlanningView todoistClient todayIso weekdayName
       = JS.Return document
    /\ document
       = ("# Weekly Planning Overview" ++ JS.nl ++ JS.nl)
         ++ Index.dateSections todayIso weekdayName tasksByDate
         ++ Index.weeklyTotal weekTasks
    /\ last (JS.lines document) EmptyString = Index.weeklyTotal weekTasks
    /\ Permutation (Index.renderedTasks tasksByDate) (Index.dated weekTasks).
Proof.
  intros Hquery Hnonempty Hdates.
  destruct (grouping_total weekTasks []) as [o Ho].
  { now apply Forall_forall. }
  exists o. eexists. split; [exact Ho|].
  unfold Index.generateWeeklyPlanningView. rewrite Hquery. cbn [JS.bind].
  split; [apply weekly_document; [exact Hnonempty | exact Ho]|].
  split; [reflexivity|].
  split; [|now apply renderedTasks_perm].
  unfold Index.dateSections.
  destruct (sections_end_nl todayIso weekdayName o (Index.sortedDates o)
              ("# Weekly Planning Overview" ++ JS.nl ++ JS.nl)) as [body Hbody].
  { repeat apply ends_nl_app. apply ends_nl_base. }
  rewrite <- append_assoc, Hbody, append_assoc.
  unfold JS.lines. apply last_line. apply weeklyTotal_singleLine.
Qed.

Lemma dated_length (weekTasks : list Task.t) :
  List.length (Index.dated weekTasks) <= List.length weekTasks
  /\ ((exists task, In task weekTasks /\ Task.due task = None) ->
      List.length (Index.dated weekTasks) < List.length weekTasks).
Proof.
  unfold Index.dated. split; [apply filter_length_le|].
  intros [task [Hin Hdue]].
  induction weekTasks as [|t l IH]; [contradiction|].
  simpl. destruct Hin as [->|Hin].
  - rewrite Hdue. apply Nat.lt_succ_r, filter_length_le.
  - specialize (IH Hin). destruct (Task.due t); simpl; lia.
Qed.

(** C10. On a non-empty result of the "7 days" query, with calendar
    dates as due dates, the weekly view returns a document whose last
    line is the total, and the total is the length of the whole query
    result.  The date sections show exactly the tasks that have a due
    date, so a task without one is in no section and still counted: as
    soon as the result holds such a task, the total exceeds the number
    of task lines of the sections. *)
Theorem weekly_total_counts_every_task
  (todoistClient : TodoistApi.t) (todayIso : string) (weekdayName : string -> string)
  (weekTasks : list Task.t)
  (Hquery : TodoistApi.getTasksByFilter todoistClient Index.weekFilter
            = JS.Return weekTasks)
  (Hnonempty : weekTasks <> [])
  (Hdates : Forall (fun k => Index.isCalendarDate k = true)
              (Index.dueDates weekTasks)) :
  exists tasksByDate document,
    Index.groupByDate weekTasks = JS.Return tasksByDate
    /\ Index.generateWeeklyPlanningView todoistClient todayIso weekdayName
       = JS.Return document
    /\ document
       = ("# Weekly Planning Overview" ++ JS.nl ++ JS.nl)
         ++ Index.dateSections todayIso weekdayName tasksByDate
         ++ "**Total this week:** " ++ JS.nat_toString (List.length weekTasks)
         ++ " tasks"
    /\ last (JS.lines document) EmptyString
       = "**Total this week:** " ++ JS.nat_toString (List.length weekTasks) ++ " tasks"
    /\ Permutation (Index.renderedTasks tasksByDate) (Index.dated weekTasks)
    /\ (forall task, In task (Index.renderedTasks tasksByDate) -> Task.due task <> None)
    /\ List.length (Index.renderedTasks tasksByDate) <= List.length weekTasks
    /\ ((exists task, In task weekTasks /\ Task.due task = None) ->
        List.length (Index.renderedTasks tasksByDate) < List.length weekTasks).
Proof.
  destruct (weekly_view_on_own_keys todoistClient todayIso weekdayName weekTasks
              Hquery Hnonempty)
    as (o & document & Ho & Hview & Hdocument & Hlast & Hperm).
  { eapply Forall_impl; [|exact Hdates]. apply calendar_date_not_inherited. }
  exists o, document.
  assert (Hlen : List.length (Index.renderedTasks o)
                 = List.length (Index.dated weekTasks))
    by now apply Permutation_length.
  destruct (dated_length weekTasks) as [Hle Hlt].
  repeat split; auto.
  - intros task Hin. eapply Permutation_in in Hin; [|exact Hperm].
    unfold Index.dated in Hin. apply filter_In in Hin.
    destruct Hin as [_ Hdue]. destruct (Task.due task); discriminate.
  - now rewrite Hlen.
  - intros H. rewrite Hlen. now apply Hlt.
Qed.

(** The sample week has three tasks, two of them dated: the sections show
    two task lines and the total says three. *)
Lemma weekly_total_counts_every_task_witness :
  exists tasksByDate document,
    Index.groupByDate Sample.week = JS.Return tasksByDate
    /\ Index.generateWeeklyPlanningView
         (Sample.client (JS.Return []) (JS.Return []) (JS.Return Sample.week))
         "2024-05-01" Sample.weekdayName
       = JS.Return document
    /\ last (JS.lines document) EmptyString = "**Total this week:** 3 tasks"
    /\ List.length (Index.renderedTasks tasksByDate) = 2.
Proof.
  destruct (weekly_total_counts_every_task
              (Sample.client (JS.Return []) (JS.Return []) (JS.Return Sample.week))
              "2024-05-01" Sample.weekdayName Sample.week)
    as (o & document & Ho & Hview & _ & Hlast & Hperm & _).
  - reflexivity.
  - discriminate.
  - repeat (apply Forall_cons; [reflexivity|]). apply Forall_nil.
  - exists o, document. repeat split; auto.
    rewrite (Permutation_length Hperm). reflexivity.
Defined.

(** ** The dispatcher *)

(** Walks down a [switch] on [name]: each [case] would make the name a
    registered one, against [H]. *)
Ltac switch_default name H :=
  repeat match goal with
         | |- context [String.eqb name ?label] =>
             destruct (String.eqb_spec name label) as [->|_]; [discriminate H|]
         end.

(** A name outside the registry reaches the default branch of the
    [switch]. *)
Lemma route_unregistered (todoistClient : TodoistApi.t) (name : string)
  (args : option JS.object) :
  Index.registered name = false ->
  Index.route todoistClient name args = JS.Throw (JS.Error ("Unknown tool: " ++ name)).
Proof.
  intros H. unfold Index.route. switch_default name H. reflexivity.
Qed.

(** The dispatcher never throws. *)
Lemma callTool_returns (todoistClient : TodoistApi.t) (name : string)
  (args : option JS.object) :
  exists result, Index.callTool todoistClient name args = JS.Return result.
Proof.
  unfold Index.callTool, JS.try_catch.
  destruct (Index.route todoistClient name args); eauto.
Qed.

(** C6. The dispatcher always returns a result, never throws.  For a
    name that is not in the registry the result is the error result with
    text "Error: Unknown tool: " and the name; whenever the selected
    handler throws, because a remote call failed or for any other
    reason, the result is the error result with text "Error: " and the
    message of the failure: one text block and [isError] true. *)
Theorem dispatch_turns_failures_into_error_results
  (todoistClient : TodoistApi.t) (name : string) (args : option JS.object) :
  (exists result, Index.callTool todoistClient name args = JS.Return result)
  /\ (Index.registered name = false ->
      Index.callTool todoistClient name args
      = JS.Return
          {| CallToolResult.content :=
               [ {| TextContent.type := "text";
                    TextContent.text := "Error: " ++ "Unknown tool: " ++ name |} ];
             CallToolResult.isError := Some true |})
  /\ (forall e,
        Index.route todoistClient name args = JS.Throw e ->
        Index.callTool todoistClient name args
        = JS.Return
            {| CallToolResult.content :=
                 [ {| TextContent.type := "text";
                      TextContent.text := "Error: " ++ JS.errorText e |} ];
               CallToolResult.isError := Some true |})
  /\ (forall e,
        TodoistApi.getTasksByFilter todoistClient args = JS.Throw e ->
        Index.callTool todoistClient "todoist_get_tasks_by_filter" args
        = JS.Return (errorResult ("Error: " ++ JS.errorText e)))
  /\ (forall e,
        TodoistApi.getTasks todoistClient args = JS.Throw e ->
        Index.callTool todoistClient "todoist_get_tasks" args
        = JS.Return (errorResult ("Error: " ++ JS.errorText e)))
  /\ (forall e,
        TodoistApi.addTask todoistClient args = JS.Throw e ->
        Index.callTool todoistClient "todoist_add_task" args
        = JS.Return (errorResult ("Error: " ++ JS.errorText e)))
  /\ (forall e,
        TodoistApi.quickAddTask todoistClient args = JS.Throw e ->
        Index.callTool todoistClient "todoist_quick_add_task" args
        = JS.Return (errorResult ("Error: " ++ JS.errorText e)))
  /\ (forall e,
        TodoistApi.getProjects todoistClient [] = JS.Throw e ->
        Index.callTool todoistClient "todoist_get_projects" args
        = JS.Return (errorResult ("Error: " ++ JS.errorText e)))
  /\ (forall e fields,
        args = Some fields ->
        TodoistApi.updateTask todoistClient (JS.get fields "task_id")
          (filter (fun field => negb (String.eqb (fst field) "task_id")) fields)
        = JS.Throw e ->
        Index.callTool todoistClient "todoist_update_task" args
        = JS.Return (errorResult ("Error: " ++ JS.errorText e)))
  /\ (forall e fields,
        args = Some fields ->
        TodoistApi.closeTask todoistClient (JS.get fields "task_id") = JS.Throw e ->
        Index.callTool todoistClient "todoist_close_task" args
        = JS.Return (errorResult ("Error: " ++ JS.errorText e)))
  /\ (forall e fields,
        args = Some fields ->
        TodoistApi.reopenTask todoistClient (JS.get fields "task_id") = JS.Throw e ->
        Index.callTool todoistClient "todoist_reopen_task" args
        = JS.Return (errorResult ("Error: " ++ JS.errorText e)))
  /\ (forall e fields,
        args = Some fields ->
        TodoistApi.deleteTask todoistClient (JS.get fields "task_id") = JS.Throw e ->
        Index.callTool todoistClient "todoist_delete_task" args
        = JS.Return (errorResult ("Error: " ++ JS.errorText e))).
Proof.
  split; [apply callTool_returns|].
  split.
  { intros H. unfold Index.callTool. now rewrite route_unregistered. }
  split.
  { intros e H. unfold Index.callTool. now rewrite H. }
  unfold Index.callTool, Index.route; cbn [String.eqb Ascii.eqb Bool.eqb].
  repeat split.
  - intros e H. unfold Index.getTasksByFilter. now rewrite H.
  - intros e H. unfold Index.getTasks. now rewrite H.
  - intros e H. unfold Index.addTask. now rewrite H.
  - intros e H. unfold Index.quickAddTask. now rewrite H.
  - intros e H. unfold Index.getProjects. now rewrite H.
  - intros e fields -> H. unfold Index.updateTask. simpl. now rewrite H.
  - intros e fields -> H. unfold Index.closeTask. simpl. now rewrite H.
  - intros e fields -> H. unfold Index.reopenTask. simpl. now rewrite H.
  - intros e fields -> H. unfold Index.deleteTask. simpl. now rewrite H.
Qed.

(** An unregistered name, a failing remote call and a handler that fails
    on its own (no arguments to read [task_id] from). *)
Lemma dispatch_turns_failures_into_error_results_witness :
  Index.callTool (Sample.client (JS.Return []) (JS.Return []) (JS.Return []))
    "todoist_move_task" None
  = JS.Return (errorResult "Error: Unknown tool: todoist_move_task")
  /\ Index.callTool (Sample.client (JS.Return []) (JS.Return []) (JS.Return []))
       "todoist_add_task" None
     = JS.Return (errorResult "Error: offline")
  /\ Index.callTool (Sample.client (JS.Return []) (JS.Return []) (JS.Return []))
       "todoist_close_task" None
     = JS.Return
         (errorResult "Error: Cannot read properties of undefined (reading 'task_id')").
Proof.
  pose proof (dispatch_turns_failures_into_error_results
                (Sample.client (JS.Return []) (JS.Return []) (JS.Return [])))
    as H.
  split; [|split].
  - destruct (H "todoist_move_task" None) as (_ & Hunknown & _).
    apply Hunknown. reflexivity.
  - destruct (H "todoist_add_task" None) as (_ & _ & Hthrow & _).
    apply (Hthrow (JS.Error "offline")). reflexivity.
  - destruct (H "todoist_close_task" None) as (_ & _ & Hthrow & _).
    apply (Hthrow
             (JS.Error "Cannot read properties of undefined (reading 'task_id')")).
    reflexivity.
Defined.

(** ** The prompt handler *)

(** C5. A prompt name that is not registered makes the prompt handler
    throw the error "Unknown prompt: " and the name: the handler has no
    [try], so it returns no result at all, whereas the tool dispatcher
    answers an unregistered name with an error result. *)
Theorem unknown_prompt_is_thrown
  (todoistClient : TodoistApi.t) (overdueFirst : bool) (todayIso : string)
  (weekdayName : string -> string) (name : string)
  (args : option (list (string * string))) (toolArgs : option JS.object)
  (Hprompt : Index.registeredPrompt name = false)
  (Htool : Index.registered name = false) :
  Index.getPrompt todoistClient overdueFirst todayIso weekdayName name args
  = JS.Throw (JS.Error ("Unknown prompt: " ++ name))
  /\ (forall result,
        Index.getPrompt todoistClient overdueFirst todayIso weekdayName name args
        <> JS.Return result)
  /\ Index.callTool todoistClient name toolArgs
     = JS.Return (errorResult ("Error: " ++ "Unknown tool: " ++ name)).
Proof.
  assert (H : Index.getPrompt todoistClient overdueFirst todayIso weekdayName name args
              = JS.Throw (JS.Error ("Unknown prompt: " ++ name))).
  { unfold Index.getPrompt. switch_default name Hprompt. reflexivity. }
  split; [exact H|]. split.
  - intros result. rewrite H. discriminate.
  - unfold Index.callTool. now rewrite route_unregistered.
Qed.

Lemma unknown_prompt_is_thrown_witness :
  Index.getPrompt Sample.nothing false "2024-05-01" Sample.weekdayName
    "weekly_review" None
  = JS.Throw (JS.Error "Unknown prompt: weekly_review")
  /\ Index.callTool Sample.nothing "weekly_review" None
     = JS.Return (errorResult "Error: Unknown tool: weekly_review").
Proof.
  destruct (unknown_prompt_is_thrown Sample.nothing false "2024-05-01"
              Sample.weekdayName "weekly_review" None None eq_refl eq_refl)
    as (Hprompt & _ & Htool).
  split; [exact Hprompt | exact Htool].
Defined.

(** A failure of the view also leaves the prompt handler as a throw. *)
Lemma prompt_failure_is_thrown :
  Index.getPrompt
    (Sample.client (JS.Throw (JS.Error "timeout")) (JS.Return []) (JS.Return []))
    false "2024-05-01" Sample.weekdayName "daily_planner" None
  = JS.Throw (JS.Error "timeout").
Proof. reflexivity. Qed.

(** ** Queries without a match *)

Lemma prefix_app (needle rest : string) : String.prefix needle (needle ++ rest) = true.
Proof.
  induction needle as [|c needle IH]; simpl.
  - now destruct rest.
  - destruct (ascii_dec c c) as [_|H]; [exact IH | contradiction].
Qed.

Lemma includes_prefix (needle haystack : string) :
  String.prefix needle haystack = true -> JS.includes needle haystack = true.
Proof.
  intros H. destruct haystack; cbn [JS.includes]; now rewrite H.
Qed.

Lemma includes_app (needle before rest : string) :
  JS.includes needle (before ++ needle ++ rest) = true.
Proof.
  induction before as [|c before IH].
  - cbn [append]. apply includes_prefix, prefix_app.
  - cbn [append JS.includes]. rewrite IH.
    now destruct (String.prefix needle (String c (before ++ needle ++ rest))).
Qed.

(** In [server.ts] a query without a match answers with one text block
    that quotes the filter, and [isError] is not set. *)
Lemma server_ts_no_match_names_filter
  (todoistClient : TodoistApi.t) (query : string) (lang : option string) :
  TodoistApi.getTasks todoistClient
    (Some [("filter", JS.VStr query); ("lang", ServerTs.langValue lang)])
  = JS.Return [] ->
  ServerTs.getTasksByFilter todoistClient query lang
  = JS.Return
      {| CallToolResult.content :=
           [ {| TextContent.type := "text";
                TextContent.text :=
                  "No tasks found matching filter: " ++ JS.dq ++ query ++ JS.dq |} ];
         CallToolResult.isError := None |}
  /\ JS.includes query ("No tasks found matching filter: " ++ JS.dq ++ query ++ JS.dq)
     = true.
Proof.
  intros H. unfold ServerTs.getTasksByFilter. rewrite H. split; [reflexivity|].
  rewrite <- (append_assoc "No tasks found matching filter: " JS.dq).
  apply includes_app.
Qed.

(** In [server.ts] a [query] of 1 to 1024 code units, with [lang] absent
    or a string, reaches the callback. *)
Lemma server_ts_accepts_in_range
  (todoistClient : TodoistApi.t) (mcpServer : McpServer.t) (fields : JS.object)
  (query : string) (lang : option string) :
  JS.get fields "query" = JS.VStr query ->
  JS.get fields "lang" = ServerTs.langValue lang ->
  1 <= JS.length query <= 1024 ->
  ServerTs.callTool todoistClient mcpServer "todoist_get_tasks_by_filter" (Some fields)
  = ServerTs.getTasksByFilter todoistClient query lang.
Proof.
  intros Hquery Hlang [Hmin Hmax].
  unfold ServerTs.callTool, ServerTs.validate.
  cbn [String.eqb Ascii.eqb Bool.eqb]. rewrite Hquery, Hlang.
  unfold Zod.parse at 1, Zod.lengthOk.
  cbn [ServerTs.querySchema Zod.minLength Zod.maxLength Zod.min Zod.max].
  assert (H1 : (JS.length query <? 1)%nat = false) by (apply Nat.ltb_ge; lia).
  assert (H2 : (1024 <? JS.length query)%nat = false) by (apply Nat.ltb_ge; lia).
  rewrite H1, H2. destruct lang; reflexivity.
Qed.

(** C4. For every valid filter, that is a [query] of 1 to 1024 code
    units with [lang] absent or a string, a call of the filter tool of
    [server.ts] whose remote query finds no task returns exactly one
    text block; its text names the filter that was used, which it holds
    in double quotes, and [isError] is not set. *)
Theorem no_match_answer_names_the_filter
  (todoistClient : TodoistApi.t) (mcpServer : McpServer.t) (fields : JS.object)
  (query : string) (lang : option string)
  (Hquery : JS.get fields "query" = JS.VStr query)
  (Hlang : JS.get fields "lang" = ServerTs.langValue lang)
  (Hvalid : 1 <= JS.length query <= 1024)
  (Hnone : TodoistApi.getTasks todoistClient
             (Some [("filter", JS.VStr query); ("lang", ServerTs.langValue lang)])
           = JS.Return []) :
  exists text,
    ServerTs.callTool todoistClient mcpServer "todoist_get_tasks_by_filter"
      (Some fields)
    = JS.Return
        {| CallToolResult.content :=
             [ {| TextContent.type := "text"; TextContent.text := text |} ];
           CallToolResult.isError := None |}
    /\ text = "No tasks found matching filter: " ++ JS.dq ++ query ++ JS.dq
    /\ JS.includes query text = true.
Proof.
  exists ("No tasks found matching filter: " ++ JS.dq ++ query ++ JS.dq).
  rewrite (server_ts_accepts_in_range todoistClient mcpServer fields query lang
             Hquery Hlang Hvalid).
  destruct (server_ts_no_match_names_filter todoistClient query lang Hnone)
    as [Hresult Hnames].
  repeat split; assumption.
Qed.

Lemma no_match_answer_names_the_filter_witness :
  exists text,
    ServerTs.callTool Sample.nothing Sample.mcpServer "todoist_get_tasks_by_filter"
      (Some [("query", JS.VStr "today")])
    = JS.Return
        {| CallToolResult.content :=
             [ {| TextContent.type := "text"; TextContent.text := text |} ];
           CallToolResult.isError := None |}
    /\ text = "No tasks found matching filter: " ++ JS.dq ++ "today" ++ JS.dq
    /\ JS.includes "today" text = true.
Proof.
  apply (no_match_answer_names_the_filter Sample.nothing Sample.mcpServer
           [("query", JS.VStr "today")] "today" None eq_refl eq_refl).
  - simpl. lia.
  - reflexivity.
Defined.

(** ** Task formatting *)

Lemma Z_toString_inj (p q : Z) : JS.Z_toString p = JS.Z_toString q -> p = q.
Proof.
  unfold JS.Z_toString. intros H.
  assert (Hparse : forall z,
             NilZero.int_of_string (NilZero.string_of_int (Z.to_int z))
             = Some (Z.to_int z)).
  { intros z. apply NilZero.isi; destruct z; simpl; try discriminate;
      intros E; injection E as E; now apply DecimalPos.Unsigned.to_uint_nonnil in E. }
  apply DecimalZ.to_int_inj.
  pose proof (Hparse p) as Hp. rewrite H, Hparse in Hp. now injection Hp.
Qed.

(** The labels of [server.ts]: Low, Medium and High for 2, 3 and 4, the
    numeral for any other priority. *)
Lemma priorityText_spec (priority : Z) :
  ServerTs.priorityText 2 = "Low"
  /\ ServerTs.priorityText 3 = "Medium"
  /\ ServerTs.priorityText 4 = "High"
  /\ (priority <> 2%Z -> priority <> 3%Z -> priority <> 4%Z ->
      ServerTs.priorityText priority = JS.Z_toString priority).
Proof.
  repeat split; try reflexivity.
  intros H2 H3 H4. unfold ServerTs.priorityText, ServerTs.priorityLabels.
  cbn [JS.own].
  destruct (String.eqb_spec "2" (JS.Z_toString priority)) as [E|_].
  { apply (Z_toString_inj 2 priority) in E. congruence. }
  destruct (String.eqb_spec "3" (JS.Z_toString priority)) as [E|_].
  { apply (Z_toString_inj 3 priority) in E. congruence. }
  destruct (String.eqb_spec "4" (JS.Z_toString priority)) as [E|_].
  { apply (Z_toString_inj 4 priority) in E. congruence. }
  reflexivity.
Qed.

(** The lines of [server.ts]: content and id always; each other line
    exactly when its field is present and not empty, the priority line
    when the priority is above 1. *)
Lemma formatTask_lines (task : Task.t) :
  ServerTs.formatTask task
  = String.concat JS.nl
      (List.concat
         [ ["• " ++ Task.content task ++ " (ID: " ++ Task.id task ++ ")"];
           if JS.truthy (Task.description task)
           then ["  Description: " ++ Index.show (Task.description task)] else [];
           match Task.due task with
           | Some due => ["  Due: " ++ Due.string due]
           | None => []
           end;
           if (1 <? Task.priority task)%Z
           then ["  Priority: " ++ ServerTs.priorityText (Task.priority task)] else [];
           match Task.labels task with
           | Some (label :: labels) =>
               ["  Labels: " ++ String.concat ", " (label :: labels)]
           | _ => []
           end;
           if JS.truthy (Task.projectId task)
           then ["  Project ID: " ++ Index.show (Task.projectId task)] else [] ]).
Proof.
  unfold ServerTs.formatTask, JS.push.
  destruct (JS.truthy (Task.description task)), (Task.due task),
    (1 <? Task.priority task)%Z, (Task.labels task) as [[|label labels]|],
    (JS.truthy (Task.projectId task)); reflexivity.
Qed.

(** The lines of [formatTaskDetails]: the same, except that the priority
    line always carries the numeral. *)
Lemma formatTaskDetails_lines (task : Task.t) :
  Index.formatTaskDetails task
  = String.concat JS.nl
      (List.concat
         [ ["• " ++ Task.content task ++ " (ID: " ++ Task.id task ++ ")"];
           if JS.truthy (Task.description task)
           then ["  Description: " ++ Index.show (Task.description task)] else [];
           match Task.due task with
           | Some due => ["  Due: " ++ Due.string due]
           | None => []
           end;
           if (1 <? Task.priority task)%Z
           then ["  Priority: " ++ JS.Z_toString (Task.priority task)] else [];
           match Task.labels task with
           | Some (label :: labels) =>
               ["  Labels: " ++ String.concat ", " (label :: labels)]
           | _ => []
           end;
           if JS.truthy (Task.projectId task)
           then ["  Project: " ++ Index.show (Task.projectId task)] else [] ]).
Proof.
  unfold Index.formatTaskDetails, JS.push.
  destruct (JS.truthy (Task.description task)), (Task.due task),
    (1 <? Task.priority task)%Z, (Task.labels task) as [[|label labels]|],
    (JS.truthy (Task.projectId task)); reflexivity.
Qed.

(** C7. For the task A of priority 4 the helper [formatTaskDetails]
    renders the priority line with the numeral 4, where the formatter of
    [server.ts] renders the label High; and a task of priority 2 is
    rendered by the helper with no label either. *)
Theorem formatTaskDetails_priority_is_numeric :
  Index.formatTaskDetails (Sample.task "A" 4 None)
  = "• A (ID: 7)" ++ JS.nl ++ "  Priority: 4"
  /\ ServerTs.formatTask (Sample.task "A" 4 None)
     = "• A (ID: 7)" ++ JS.nl ++ "  Priority: High"
  /\ Index.formatTaskDetails (Sample.task "A" 2 None)
     = "• A (ID: 7)" ++ JS.nl ++ "  Priority: 2"
  /\ JS.includes "Low" (Index.formatTaskDetails (Sample.task "A" 2 None)) = false.
Proof. repeat split; reflexivity. Qed.

(** ** Validation of the filter argument *)

(** The schema of [server.ts] bounds the length of [query]. *)
Lemma server_ts_schema_bounds :
  Zod.minLength ServerTs.querySchema = Some 1
  /\ Zod.maxLength ServerTs.querySchema = Some 1024.
Proof. split; reflexivity. Qed.

(** In [server.ts] a [query] of length 0 or above 1024 is refused
    before the callback runs: the call throws the library's error for
    invalid arguments, for every client. *)
Lemma server_ts_rejects_out_of_range
  (todoistClient : TodoistApi.t) (mcpServer : McpServer.t) (fields : JS.object)
  (query : string) :
  JS.get fields "query" = JS.VStr query ->
  JS.length query < 1 \/ 1024 < JS.length query ->
  ServerTs.validate (Some fields) = None
  /\ ServerTs.callTool todoistClient mcpServer "todoist_get_tasks_by_filter"
       (Some fields)
     = JS.Throw
         (McpServer.invalidArguments mcpServer "todoist_get_tasks_by_filter"
            (Some fields)).
Proof.
  intros Hquery Hlen.
  assert (H : ServerTs.validate (Some fields) = None).
  { unfold ServerTs.validate. rewrite Hquery. unfold Zod.parse, Zod.lengthOk.
    cbn [ServerTs.querySchema Zod.minLength Zod.maxLength Zod.min Zod.max].
    destruct Hlen as [Hlen|Hlen].
    - apply Nat.ltb_lt in Hlen. now rewrite Hlen.
    - apply Nat.ltb_lt in Hlen. rewrite Hlen. now rewrite andb_false_r. }
  split; [exact H|].
  unfold ServerTs.callTool. cbn [String.eqb Ascii.eqb Bool.eqb]. now rewrite H.
Qed.

(** The callback of [server.ts] catches what its body throws. *)
Lemma server_ts_callback_returns
  (todoistClient : TodoistApi.t) (query : string) (lang : option string) :
  exists result, ServerTs.getTasksByFilter todoistClient query lang = JS.Return result.
Proof.
  unfold ServerTs.getTasksByFilter.
  destruct (TodoistApi.getTasks todoistClient _) as [tasks|e];
    cbn [JS.bind JS.try_catch]; [|eauto].
  destruct (Nat.eqb (List.length tasks) 0); cbn [JS.try_catch]; eauto.
Qed.

(** C8. The schema that [server.ts] declares for the filter argument
    [query] of the filter tool is a string of at least 1 and at most
    1024 characters (counted as [length] counts them), and an argument
    set whose [query] has length 0 or more than 1024 is rejected by
    validation before the callback runs: the call is refused with one
    and the same error whatever the remote client is, whereas the
    callback, once it runs, returns. *)
Theorem out_of_range_filter_is_refused
  (mcpServer : McpServer.t) (fields : JS.object) (query : string)
  (Hquery : JS.get fields "query" = JS.VStr query)
  (Hlength : JS.length query < 1 \/ 1024 < JS.length query) :
  Zod.minLength ServerTs.querySchema = Some 1
  /\ Zod.maxLength ServerTs.querySchema = Some 1024
  /\ Zod.parse ServerTs.querySchema (JS.VStr query) = None
  /\ ServerTs.validate (Some fields) = None
  /\ (exists e,
        forall todoistClient,
          ServerTs.callTool todoistClient mcpServer "todoist_get_tasks_by_filter"
            (Some fields)
          = JS.Throw e)
  /\ (forall todoistClient accepted lang,
        exists result,
          ServerTs.getTasksByFilter todoistClient accepted lang = JS.Return result).
Proof.
  split; [reflexivity|]. split; [reflexivity|]. split.
  { unfold Zod.parse, Zod.lengthOk.
    cbn [ServerTs.querySchema Zod.minLength Zod.maxLength Zod.min Zod.max].
    destruct Hlength as [H|H]; apply Nat.ltb_lt in H; rewrite H;
      [reflexivity | now rewrite andb_false_r]. }
  split.
  { apply (server_ts_rejects_out_of_range
             Sample.nothing mcpServer fields query Hquery Hlength). }
  split.
  - exists (McpServer.invalidArguments mcpServer "todoist_get_tasks_by_filter"
              (Some fields)).
    intros todoistClient.
    apply (server_ts_rejects_out_of_range
             todoistClient mcpServer fields query Hquery Hlength).
  - intros todoistClient accepted lang. apply server_ts_callback_returns.
Qed.

Lemma out_of_range_filter_is_refused_witness :
  exists e,
    forall todoistClient,
      ServerTs.callTool todoistClient Sample.mcpServer "todoist_get_tasks_by_filter"
        (Some [("query", JS.VStr (Sample.letters 1025))])
      = JS.Throw e.
Proof.
  destruct (out_of_range_filter_is_refused Sample.mcpServer
              [("query", JS.VStr (Sample.letters 1025))] (Sample.letters 1025)
              eq_refl)
    as (_ & _ & _ & _ & H & _).
  - right. vm_compute. lia.
  - exact H.
Defined.

(** The schema that the listing of [index.ts] declares for [filter] is a
    string with a description and no length keyword, and its dispatcher
    hands the arguments to the handler as they come. *)
Lemma index_filter_schema_has_no_length :
  Index.declaredProperty "todoist_get_tasks_by_filter" "filter"
  = JS.VObj
      [("type", JS.VStr "string");
       ("description",
        JS.VStr "Filter expression (e.g., 'today', 'overdue', 'p1', '7 days')")]
  /\ Index.keyword (Index.declaredProperty "todoist_get_tasks_by_filter" "filter")
       "minLength" = JS.VUndefined
  /\ Index.keyword (Index.declaredProperty "todoist_get_tasks_by_filter" "filter")
       "maxLength" = JS.VUndefined
  /\ (forall todoistClient args,
        Index.callTool todoistClient "todoist_get_tasks_by_filter" args
        = JS.try_catch (Index.getTasksByFilter todoistClient args)
            (fun error => JS.Return (errorResult ("Error: " ++ JS.errorText error)))).
Proof. repeat split; reflexivity. Qed.

(** * Further properties *)

(** ** Results of the dispatcher *)

(** Finds out which tool [name] is, one [case] after the other. *)
Ltac switch_cases name :=
  repeat match goal with
         | |- context [String.eqb name ?label] =>
             destruct (String.eqb_spec name label) as [->|_]
         | H : context [String.eqb name ?label] |- _ =>
             destruct (String.eqb_spec name label) as [->|_]
         end.

(** A handler that returns, returns a plain text result. *)
Lemma route_returns_text (todoistClient : TodoistApi.t) (name : string)
  (args : option JS.object) (result : CallToolResult.t) :
  Index.route todoistClient name args = JS.Return result ->
  exists text, result = textResult text.
Proof.
  unfold Index.route. switch_cases name; try discriminate.
  - unfold Index.addTask.
    destruct (TodoistApi.addTask todoistClient args); simpl; intros H;
      inversion H; eauto.
  - unfold Index.getTasks.
    destruct (TodoistApi.getTasks todoistClient args) as [tasks|]; simpl;
      [|discriminate].
    destruct (Nat.eqb (List.length tasks) 0); intros H; inversion H; eauto.
  - unfold Index.getTasksByFilter.
    destruct (TodoistApi.getTasksByFilter todoistClient args) as [tasks|]; simpl;
      [|discriminate].
    destruct (Nat.eqb (List.length tasks) 0); [intros H; inversion H; eauto|].
    destruct args as [fields|]; cbn [JS.prop JS.bind]; [|discriminate].
    destruct (JS.ToString (JS.get fields "filter")); cbn [JS.bind]; intros H;
      inversion H; eauto.
  - unfold Index.updateTask. destruct args as [fields|]; simpl; [|discriminate].
    destruct (TodoistApi.updateTask todoistClient _ _); simpl; intros H;
      inversion H; eauto.
  - unfold Index.closeTask.
    destruct args as [fields|]; cbn [JS.prop JS.bind]; [|discriminate].
    destruct (TodoistApi.closeTask todoistClient _) as [[|]|]; cbn [JS.bind];
      [| |discriminate];
      destruct (JS.ToString (JS.get fields "task_id")); cbn [JS.bind]; intros H;
      inversion H; eauto.
  - unfold Index.reopenTask.
    destruct args as [fields|]; cbn [JS.prop JS.bind]; [|discriminate].
    destruct (TodoistApi.reopenTask todoistClient _) as [[|]|]; cbn [JS.bind];
      [| |discriminate];
      destruct (JS.ToString (JS.get fields "task_id")); cbn [JS.bind]; intros H;
      inversion H; eauto.
  - unfold Index.deleteTask.
    destruct args as [fields|]; cbn [JS.prop JS.bind]; [|discriminate].
    destruct (TodoistApi.deleteTask todoistClient _) as [[|]|]; cbn [JS.bind];
      [| |discriminate];
      destruct (JS.ToString (JS.get fields "task_id")); cbn [JS.bind]; intros H;
      inversion H; eauto.
  - unfold Index.getProjects.
    destruct (TodoistApi.getProjects todoistClient []); simpl; intros H;
      inversion H; eauto.
  - unfold Index.quickAddTask.
    destruct (TodoistApi.quickAddTask todoistClient args); simpl; intros H;
      inversion H; eauto.
Qed.

(** X1. Every tool call is answered with exactly one text block, and
    [isError] tells whether the handler threw: it is not set when the
    selected handler returned, and true, with the text "Error: " and the
    message, when it threw. *)
Theorem dispatch_result_shape
  (todoistClient : TodoistApi.t) (name : string) (args : option JS.object) :
  exists text,
    Index.callTool todoistClient name args
    = JS.Return
        {| CallToolResult.content :=
             [ {| TextContent.type := "text"; TextContent.text := text |} ];
           CallToolResult.isError :=
             match Index.route todoistClient name args with
             | JS.Return _ => None
             | JS.Throw _ => Some true
             end |}
    /\ (forall e, Index.route todoistClient name args = JS.Throw e ->
                  text = "Error: " ++ JS.errorText e).
Proof.
  unfold Index.callTool, JS.try_catch.
  destruct (Index.route todoistClient name args) as [result|e] eqn:E.
  - destruct (route_returns_text _ _ _ _ E) as [text ->].
    exists text. split; [reflexivity | discriminate].
  - exists ("Error: " ++ JS.errorText e). split; [reflexivity|].
    intros e' H. now injection H as <-.
Qed.

Lemma registered_cases (name : string) :
  Index.registered name = true ->
  In name
    ["todoist_add_task"; "todoist_get_tasks"; "todoist_get_tasks_by_filter";
     "todoist_update_task"; "todoist_close_task"; "todoist_reopen_task";
     "todoist_delete_task"; "todoist_get_projects"; "todoist_quick_add_task"].
Proof.
  unfold Index.registered, Index.tools. cbn [existsb Index.Tool.name].
  rewrite !orb_true_iff, !String.eqb_eq. cbn [In].
  intros H. repeat (destruct H as [H|H]; [tauto|]). discriminate H.
Qed.

(** X2. With a remote client whose operations all succeed, a call of a
    registered tool that carries an arguments object is answered without
    [isError] whenever the two arguments that the answers interpolate,
    [task_id] and [filter], convert to strings.  That conversion is the
    one further source of error results, besides an unknown name, a
    missing arguments object and a failing remote call: when [task_id]
    does not convert (an object with a [toString] property of its own),
    closing, reopening and deleting answer, after their remote call
    succeeded, with the error result of the conversion. *)
Theorem registered_tools_succeed_on_reliable_client
  (todoistClient : TodoistApi.t) (name : string) (fields : JS.object)
  (Hreliable : Index.reliable todoistClient)
  (Hregistered : Index.registered name = true) :
  ((forall key, In key ["task_id"; "filter"] ->
                exists text, JS.ToString (JS.get fields key) = JS.Return text) ->
   exists text,
     Index.callTool todoistClient name (Some fields) = JS.Return (textResult text))
  /\ (forall e,
        In name ["todoist_close_task"; "todoist_reopen_task"; "todoist_delete_task"] ->
        JS.ToString (JS.get fields "task_id") = JS.Throw e ->
        Index.callTool todoistClient name (Some fields)
        = JS.Return (errorResult ("Error: " ++ JS.errorText e))).
Proof.
  destruct Hreliable as (Hadd & Hget & Hfilter & Hupdate & Hclose & Hreopen
                         & Hdelete & Hprojects & Hquick).
  split.
  - intros Hconvert.
    destruct (Hconvert "task_id") as [id Hid]; [now left|].
    destruct (Hconvert "filter") as [filter Hfilter']; [right; now left|].
    clear Hconvert. apply registered_cases in Hregistered.
    unfold Index.callTool, Index.route.
    repeat (destruct Hregistered as [<-|Hregistered]);
      [..|contradiction]; cbn [String.eqb Ascii.eqb Bool.eqb].
    + unfold Index.addTask. destruct (Hadd (Some fields)) as [task ->].
      simpl. eauto.
    + unfold Index.getTasks. destruct (Hget (Some fields)) as [tasks ->].
      simpl. destruct (Nat.eqb (List.length tasks) 0); simpl; eauto.
    + unfold Index.getTasksByFilter. destruct (Hfilter (Some fields)) as [tasks ->].
      cbn [JS.bind JS.prop].
      destruct (Nat.eqb (List.length tasks) 0); [simpl; eauto|].
      rewrite Hfilter'. simpl. eauto.
    + unfold Index.updateTask. simpl.
      destruct (Hupdate (JS.get fields "task_id")
                  (List.filter (fun field => negb (String.eqb (fst field) "task_id"))
                     fields))
        as [task ->].
      simpl. eauto.
    + unfold Index.closeTask. cbn [JS.bind JS.prop].
      destruct (Hclose (JS.get fields "task_id")) as [success ->].
      rewrite Hid. destruct success; simpl; eauto.
    + unfold Index.reopenTask. cbn [JS.bind JS.prop].
      destruct (Hreopen (JS.get fields "task_id")) as [success ->].
      rewrite Hid. destruct success; simpl; eauto.
    + unfold Index.deleteTask. cbn [JS.bind JS.prop].
      destruct (Hdelete (JS.get fields "task_id")) as [success ->].
      rewrite Hid. destruct success; simpl; eauto.
    + unfold Index.getProjects. destruct (Hprojects []) as [projects ->].
      simpl. eauto.
    + unfold Index.quickAddTask. destruct (Hquick (Some fields)) as [task ->].
      simpl. eauto.
  - intros e Hname Hthrow. unfold Index.callTool, Index.route.
    repeat (destruct Hname as [<-|Hname]); [..|contradiction];
      cbn [String.eqb Ascii.eqb Bool.eqb].
    + unfold Index.closeTask. cbn [JS.bind JS.prop].
      destruct (Hclose (JS.get fields "task_id")) as [success ->].
      rewrite Hthrow. now destruct success.
    + unfold Index.reopenTask. cbn [JS.bind JS.prop].
      destruct (Hreopen (JS.get fields "task_id")) as [success ->].
      rewrite Hthrow. now destruct success.
    + unfold Index.deleteTask. cbn [JS.bind JS.prop].
      destruct (Hdelete (JS.get fields "task_id")) as [success ->].
      rewrite Hthrow. now destruct success.
Qed.

Lemma online_reliable : Index.reliable Sample.online.
Proof. repeat split; intros; eexists; reflexivity. Qed.

Lemma registered_tools_succeed_on_reliable_client_witness :
  (exists text,
     Index.callTool Sample.online "todoist_delete_task" (Some [("task_id", JS.VStr "7")])
     = JS.Return (textResult text))
  /\ Index.callTool Sample.online "todoist_close_task"
       (Some [("task_id", JS.VObj [("toString", JS.VNum 1)])])
     = JS.Return (errorResult "Error: Cannot convert object to primitive value").
Proof.
  split.
  - apply (registered_tools_succeed_on_reliable_client Sample.online
             "todoist_delete_task" [("task_id", JS.VStr "7")] online_reliable eq_refl).
    intros key [<-|[<-|[]]]; eexists; reflexivity.
  - destruct (registered_tools_succeed_on_reliable_client Sample.online
                "todoist_close_task" [("task_id", JS.VObj [("toString", JS.VNum 1)])]
                online_reliable eq_refl) as [_ H].
    apply (H (JS.Error "Cannot convert object to primitive value")).
    + now left.
    + reflexivity.
Defined.

(** ** Arguments of the tools *)

Lemma get_without (fields : JS.object) (removed key : string) :
  JS.get (filter (fun field => negb (String.eqb (fst field) removed)) fields) key
  = if String.eqb removed key then JS.VUndefined else JS.get fields key.
Proof.
  induction fields as [|[k v] fields IH]; simpl.
  - now destruct (String.eqb removed key).
  - destruct (String.eqb_spec k removed) as [->|Hk]; simpl.
    + rewrite IH. destruct (String.eqb_spec removed key); reflexivity.
    + rewrite IH. destruct (String.eqb_spec k key) as [->|_]; [|reflexivity].
      destruct (String.eqb_spec removed key) as [->|_]; [contradiction|reflexivity].
Qed.

(** X3. An update splits its arguments: the remote client receives
    [task_id] as the identifier and, as the changes, the other
    properties with their values, without [task_id] (none at all when
    [task_id] is the only property).  What the client answers decides
    the result: the confirmation with the content and id of the updated
    task, or the error result. *)
Theorem update_forwards_the_other_fields
  (todoistClient : TodoistApi.t) (fields : JS.object) :
  exists updateData,
    Index.destructureTaskId (Some fields)
    = JS.Return (JS.get fields "task_id", updateData)
    /\ JS.get updateData "task_id" = JS.VUndefined
    /\ (forall key, key <> "task_id" -> JS.get updateData key = JS.get fields key)
    /\ ((forall field, In field fields -> fst field = "task_id") -> updateData = [])
    /\ (forall updatedTask,
          TodoistApi.updateTask todoistClient (JS.get fields "task_id") updateData
          = JS.Return updatedTask ->
          Index.callTool todoistClient "todoist_update_task" (Some fields)
          = JS.Return
              (textResult
                 ("✓ Updated task: " ++ JS.dq ++ Task.content updatedTask ++ JS.dq
                  ++ JS.nl ++ "ID: " ++ Task.id updatedTask)))
    /\ (forall e,
          TodoistApi.updateTask todoistClient (JS.get fields "task_id") updateData
          = JS.Throw e ->
          Index.callTool todoistClient "todoist_update_task" (Some fields)
          = JS.Return (errorResult ("Error: " ++ JS.errorText e))).
Proof.
  eexists. split; [reflexivity|]. repeat split.
  - rewrite get_without. now rewrite String.eqb_refl.
  - intros key Hkey. rewrite get_without.
    destruct (String.eqb_spec "task_id" key) as [<-|_]; [contradiction|reflexivity].
  - intros H. induction fields as [|field fields IH]; [reflexivity|].
    simpl. rewrite (H field) by now left. simpl. apply IH.
    intros f Hf. apply H. now right.
  - intros updatedTask H. unfold Index.callTool, Index.route.
    cbn [String.eqb Ascii.eqb Bool.eqb]. unfold Index.updateTask. simpl.
    now rewrite H.
  - intros e H. unfold Index.callTool, Index.route.
    cbn [String.eqb Ascii.eqb Bool.eqb]. unfold Index.updateTask. simpl.
    now rewrite H.
Qed.

(** X4. The four tools that read [task_id] never reach the remote
    client when the call has no arguments object: whatever the client
    is, the answer is one and the same error result. *)
Theorem task_id_tools_need_arguments
  (name : string) (todoistClient other : TodoistApi.t)
  (Hname : In name ["todoist_update_task"; "todoist_close_task";
                    "todoist_reopen_task"; "todoist_delete_task"]) :
  Index.callTool todoistClient name None = Index.callTool other name None
  /\ exists text, Index.callTool todoistClient name None = JS.Return (errorResult text).
Proof.
  repeat (destruct Hname as [<-|Hname]); [..|contradiction];
    (split; [reflexivity | eexists; reflexivity]).
Qed.

Lemma task_id_tools_need_arguments_witness :
  Index.callTool Sample.online "todoist_close_task" None
  = Index.callTool Sample.nothing "todoist_close_task" None.
Proof.
  apply (task_id_tools_need_arguments "todoist_close_task" Sample.online Sample.nothing).
  simpl. tauto.
Defined.

(** X5. The filter handler reads [args.filter] only to report a
    non-empty result.  Without an arguments object an empty result is
    still reported as "no tasks found", while a non-empty one becomes an
    error result; with an object that has no [filter] the report quotes
    "undefined". *)
Theorem filter_is_read_only_for_the_report
  (todoistClient : TodoistApi.t) (args : option JS.object) (tasks : list Task.t)
  (Hquery : TodoistApi.getTasksByFilter todoistClient args = JS.Return tasks) :
  (tasks = [] ->
   Index.callTool todoistClient "todoist_get_tasks_by_filter" args
   = JS.Return (textResult "No tasks found matching the filter."))
  /\ (tasks <> [] -> args = None ->
      exists text,
        Index.callTool todoistClient "todoist_get_tasks_by_filter" args
        = JS.Return (errorResult text))
  /\ (tasks <> [] ->
      forall fields, args = Some fields -> JS.get fields "filter" = JS.VUndefined ->
      Index.callTool todoistClient "todoist_get_tasks_by_filter" args
      = JS.Return
          (textResult
             ("Found " ++ JS.nat_toString (List.length tasks) ++ " tasks with filter "
              ++ JS.dq ++ "undefined" ++ JS.dq ++ ":" ++ JS.nl ++ JS.nl
              ++ String.concat (JS.nl ++ JS.nl) (map Index.formatTaskDetails tasks)))).
Proof.
  unfold Index.callTool, Index.route. cbn [String.eqb Ascii.eqb Bool.eqb].
  unfold Index.getTasksByFilter. rewrite Hquery. cbn [JS.bind].
  repeat split.
  - intros ->. reflexivity.
  - intros Hne ->. destruct tasks; [contradiction|]. simpl. eauto.
  - intros Hne fields -> Hfilter. destruct tasks; [contradiction|].
    simpl. now rewrite Hfilter.
Qed.

Lemma filter_is_read_only_for_the_report_witness :
  exists text,
    Index.callTool Sample.online "todoist_get_tasks_by_filter" None
    = JS.Return (errorResult text).
Proof.
  apply (filter_is_read_only_for_the_report Sample.online None
           [Sample.task "A" 4 None] eq_refl); [discriminate | reflexivity].
Defined.

(** ** The resource handler *)

(** X6. Reading a resource never throws: the answer is always one
    markdown entry that repeats the requested URI.  Its text is the
    view for the two listed URIs, "Error: " and the message when the
    view throws, and "Error: Unknown resource: " and the URI for a URI
    that is not listed. *)
Theorem readResource_always_answers
  (todoistClient : TodoistApi.t) (overdueFirst : bool) (todayIso : string)
  (weekdayName : string -> string) (uri : string) :
  exists text,
    Index.readResource todoistClient overdueFirst todayIso weekdayName uri
    = JS.Return
        {| ReadResourceResult.contents :=
             [ {| ResourceContents.uri := uri;
                  ResourceContents.mimeType := "text/markdown";
                  ResourceContents.text := text |} ] |}
    /\ (Index.listedResource uri = false -> text = "Error: Unknown resource: " ++ uri)
    /\ (uri = "todoist://planning/daily" ->
        text = match Index.generateDailyPlanningView todoistClient overdueFirst with
               | JS.Return document => document
               | JS.Throw e => "Error: " ++ JS.errorText e
               end)
    /\ (uri = "todoist://planning/weekly" ->
        text = match Index.generateWeeklyPlanningView todoistClient todayIso
                       weekdayName with
               | JS.Return document => document
               | JS.Throw e => "Error: " ++ JS.errorText e
               end).
Proof.
  unfold Index.readResource, Index.listedResource, Index.resources.
  cbn [existsb Index.Resource.uri].
  rewrite (String.eqb_sym "todoist://planning/daily"),
    (String.eqb_sym "todoist://planning/weekly").
  destruct (String.eqb_spec uri "todoist://planning/daily") as [->|Hdaily].
  - cbn [String.eqb Ascii.eqb Bool.eqb orb].
    destruct (Index.generateDailyPlanningView todoistClient overdueFirst);
      eexists; (split; [reflexivity|]); repeat split; try discriminate; reflexivity.
  - destruct (String.eqb_spec uri "todoist://planning/weekly") as [->|Hweekly].
    + destruct (Index.generateWeeklyPlanningView todoistClient todayIso weekdayName);
        eexists; (split; [reflexivity|]); repeat split; try discriminate;
        reflexivity.
    + eexists. split; [reflexivity|]. repeat split; try reflexivity;
        intros; contradiction.
Qed.

(** ** Groups of the weekly view *)

Lemma own_update {A : Type} (o : list (string * A)) (key : string) (f : A -> A)
  (d : string) :
  JS.own (JS.update o key f) d
  = if String.eqb key d then option_map f (JS.own o d) else JS.own o d.
Proof.
  induction o as [|[k v] o IH]; simpl.
  - now destruct (String.eqb key d).
  - destruct (String.eqb_spec k key) as [->|Hk]; simpl.
    + destruct (String.eqb key d); reflexivity.
    + rewrite IH. destruct (String.eqb_spec k d) as [->|_]; [|reflexivity].
      destruct (String.eqb_spec key d) as [->|_]; [contradiction|reflexivity].
Qed.

Lemma own_push {A : Type} (o : list (string * A)) (key : string) (v : A)
  (d : string) :
  JS.own (JS.push o (key, v)) d
  = match JS.own o d with
    | Some x => Some x
    | None => if String.eqb key d then Some v else None
    end.
Proof.
  unfold JS.push. induction o as [|[k x] o IH]; simpl; [reflexivity|].
  destruct (String.eqb k d); [reflexivity | exact IH].
Qed.

Lemma dueOn_cons (date : string) (task : Task.t) (l : list Task.t) :
  Index.dueOn date (task :: l) = (Index.dueOn date [task] ++ Index.dueOn date l)%list.
Proof.
  unfold Index.dueOn. simpl.
  destruct (Task.due task) as [due|]; [|reflexivity].
  destruct (String.eqb (Due.date due) date); reflexivity.
Qed.

Lemma groupTask_tasksOn (o o' : Index.TasksByDate) (task : Task.t) (date : string) :
  Index.groupTask o task = JS.Return o' ->
  Index.tasksOn o' date = (Index.tasksOn o date ++ Index.dueOn date [task])%list.
Proof.
  unfold Index.groupTask, Index.tasksOn, Index.dueOn. simpl.
  destruct (Task.due task) as [due|].
  - destruct (JS.own o (Due.date due)) as [tasks|] eqn:Eown.
    + intros H. injection H as <-. rewrite own_update.
      destruct (String.eqb_spec (Due.date due) date) as [<-|_].
      * rewrite Eown. reflexivity.
      * now rewrite app_nil_r.
    + destruct (JS.inherited (Due.date due)); [discriminate|].
      intros H. injection H as <-. rewrite own_push.
      destruct (String.eqb_spec (Due.date due) date) as [<-|_].
      * rewrite Eown. reflexivity.
      * destruct (JS.own o date); now rewrite app_nil_r.
  - intros H. injection H as <-. now rewrite app_nil_r.
Qed.

Lemma grouping_tasksOn (l : list Task.t) (o o' : Index.TasksByDate) (date : string) :
  Index.forEach Index.groupTask l o = JS.Return o' ->
  Index.tasksOn o' date = (Index.tasksOn o date ++ Index.dueOn date l)%list.
Proof.
  revert o. induction l as [|task l IH]; intros o.
  - simpl. intros H. injection H as <-. now rewrite app_nil_r.
  - rewrite dueOn_cons. cbn [Index.forEach]. unfold JS.bind.
    destruct (Index.groupTask o task) as [o1|] eqn:Estep; [|discriminate].
    intros H. rewrite (IH _ H), (groupTask_tasksOn _ _ _ _ Estep).
    now rewrite app_assoc.
Qed.

(** The array of a date holds the tasks due on that date, in query
    order. *)
Lemma tasksOn_dueOn (weekTasks : list Task.t) (tasksByDate : Index.TasksByDate)
  (date : string) :
  Index.groupByDate weekTasks = JS.Return tasksByDate ->
  Index.tasksOn tasksByDate date = Index.dueOn date weekTasks.
Proof.
  intros H. apply (grouping_tasksOn _ _ _ date) in H. exact H.
Qed.

(** X7. Grouping keeps the order of the query inside every date: the
    section of a date lists exactly the tasks due on that date, in the
    order in which the query returned them, and the sections together
    show these lists in section order. *)
Theorem weekly_sections_keep_query_order
  (weekTasks : list Task.t) (tasksByDate : Index.TasksByDate)
  (Hgroup : Index.groupByDate weekTasks = JS.Return tasksByDate) :
  (forall date, Index.tasksOn tasksByDate date = Index.dueOn date weekTasks)
  /\ Index.renderedTasks tasksByDate
     = flat_map (fun date => Index.dueOn date weekTasks)
         (Index.sortedDates tasksByDate).
Proof.
  split.
  - intros date. now apply tasksOn_dueOn.
  - unfold Index.renderedTasks. apply flat_map_ext_In.
    intros date _. now apply tasksOn_dueOn.
Qed.

Lemma weekly_sections_keep_query_order_witness :
  Index.dueOn "2024-05-02" Sample.week = [Sample.task "B" 1 (Some "2024-05-02")]
  /\ exists tasksByDate,
       Index.groupByDate Sample.week = JS.Return tasksByDate
       /\ Index.tasksOn tasksByDate "2024-05-02"
          = Index.dueOn "2024-05-02" Sample.week.
Proof.
  split; [reflexivity|]. eexists. split; [reflexivity|].
  apply (weekly_sections_keep_query_order Sample.week _ eq_refl).
Defined.

(** X8. The grouping of the weekly view throws exactly when some due
    date is the name of a property that objects inherit (such as
    "constructor" or "toString"), and then with the [TypeError] of the
    missing [push]; reading the weekly resource then answers with that
    error text instead of a view. *)
Theorem weekly_grouping_fails_on_inherited_names
  (todoistClient : TodoistApi.t) (overdueFirst : bool) (todayIso : string)
  (weekdayName : string -> string) (weekTasks : list Task.t) :
  ((exists k, In k (Index.dueDates weekTasks) /\ JS.inherited k = true)
   <-> Index.groupByDate weekTasks = JS.Throw Index.pushIsNotAFunction)
  /\ (forall e, Index.groupByDate weekTasks = JS.Throw e -> e = Index.pushIsNotAFunction)
  /\ (TodoistApi.getTasksByFilter todoistClient Index.weekFilter = JS.Return weekTasks ->
      (exists k, In k (Index.dueDates weekTasks) /\ JS.inherited k = true) ->
      Index.readResource todoistClient overdueFirst todayIso weekdayName
        "todoist://planning/weekly"
      = JS.Return
          (Index.markdown "todoist://planning/weekly"
             "Error: tasksByDate[dateKey].push is not a function")).
Proof.
  assert (Hthrow : (exists k, In k (Index.dueDates weekTasks) /\ JS.inherited k = true)
                   -> Index.groupByDate weekTasks = JS.Throw Index.pushIsNotAFunction).
  { intros [k [Hk Hinh]].
    destruct (Index.groupByDate weekTasks) as [o|e] eqn:E.
    - apply groupByDate_return in E. destruct E as (_ & _ & _ & Hclear).
      rewrite (Hclear k Hk) in Hinh. discriminate.
    - apply grouping_throw in E. destruct E as [-> _]. reflexivity. }
  split; [split; [exact Hthrow|]|split].
  - intros H. apply grouping_throw in H. tauto.
  - intros e H. apply grouping_throw in H. tauto.
  - intros Hquery Hkey. apply Hthrow in Hkey.
    unfold Index.readResource. cbn [String.eqb Ascii.eqb Bool.eqb].
    unfold Index.generateWeeklyPlanningView. rewrite Hquery. cbn [JS.bind].
    unfold Index.weeklyPlanningDocument.
    destruct weekTasks as [|task rest]; [discriminate Hkey|].
    cbn [List.length Nat.eqb]. rewrite Hkey. reflexivity.
Qed.

Lemma grouping_undated (l : list Task.t) (o : Index.TasksByDate) :
  (forall task, In task l -> Task.due task = None) ->
  Index.forEach Index.groupTask l o = JS.Return o.
Proof.
  revert o. induction l as [|task l IH]; intros o H; [reflexivity|].
  cbn [Index.forEach]. unfold Index.groupTask at 1.
  rewrite (H task) by now left. cbn [JS.bind]. apply IH.
  intros t Ht. apply H. now right.
Qed.

(** X9. The two weekly documents without a date section: an empty
    query result gives the title and "No tasks scheduled for this
    week." and no total; a result that is not empty but holds no task
    with a due date gives the title followed at once by the total. *)
Theorem weekly_view_without_sections
  (todoistClient : TodoistApi.t) (todayIso : string) (weekdayName : string -> string)
  (weekTasks : list Task.t)
  (Hquery : TodoistApi.getTasksByFilter todoistClient Index.weekFilter
            = JS.Return weekTasks)
  (Hundated : forall task, In task weekTasks -> Task.due task = None) :
  Index.generateWeeklyPlanningView todoistClient todayIso weekdayName
  = JS.Return
      ("# Weekly Planning Overview" ++ JS.nl ++ JS.nl
       ++ match weekTasks with
          | [] => "No tasks scheduled for this week."
          | _ :: _ =>
              "**Total this week:** " ++ JS.nat_toString (List.length weekTasks)
              ++ " tasks"
          end).
Proof.
  unfold Index.generateWeeklyPlanningView. rewrite Hquery. cbn [JS.bind].
  unfold Index.weeklyPlanningDocument.
  destruct weekTasks as [|task rest]; [reflexivity|].
  cbn [List.length Nat.eqb]. unfold Index.groupByDate.
  rewrite (grouping_undated _ _ Hundated). reflexivity.
Qed.

Lemma weekly_view_without_sections_witness :
  Index.generateWeeklyPlanningView
    (Sample.client (JS.Return []) (JS.Return [])
       (JS.Return [Sample.task "C" 1 None; Sample.task "D" 2 None]))
    "2024-05-01" Sample.weekdayName
  = JS.Return
      ("# Weekly Planning Overview" ++ JS.nl ++ JS.nl ++ "**Total this week:** 2 tasks").
Proof.
  apply (weekly_view_without_sections
           (Sample.client (JS.Return []) (JS.Return [])
              (JS.Return [Sample.task "C" 1 None; Sample.task "D" 2 None]))
           "2024-05-01" Sample.weekdayName
           [Sample.task "C" 1 None; Sample.task "D" 2 None] eq_refl).
  intros task [<-|[<-|[]]]; reflexivity.
Defined.

(** ** Line feeds: joining and splitting *)

Lemma lines_from_line (line rest cur : string) :
  JS.singleLine line = true ->
  JS.lines_from cur (line ++ JS.nl ++ rest)
  = (cur ++ line) :: JS.lines_from EmptyString rest.
Proof.
  revert cur. induction line as [|c line IH]; intros cur H.
  - simpl. now rewrite append_empty_r.
  - simpl in H. apply andb_true_iff in H. destruct H as [Hc Hline].
    apply negb_true_iff in Hc. cbn [append JS.lines_from]. rewrite Hc.
    rewrite (IH _ Hline), append_assoc. reflexivity.
Qed.

Lemma terminated_cons (line : string) (lines : list string) :
  Lines.terminated (line :: lines) = line ++ JS.nl ++ Lines.terminated lines.
Proof.
  unfold Lines.terminated. cbn [map]. rewrite concat_empty_cons.
  apply append_assoc.
Qed.

Lemma terminated_app (a b : list string) :
  Lines.terminated (a ++ b) = Lines.terminated a ++ Lines.terminated b.
Proof.
  induction a as [|line a IH]; [reflexivity|].
  rewrite <- app_comm_cons, !terminated_cons, IH, !append_assoc. reflexivity.
Qed.

(** Splitting a text made of single lines gives the lines back. *)
Lemma lines_terminated (lines : list string) (final : string) :
  Forall (fun line => JS.singleLine line = true) lines ->
  JS.singleLine final = true ->
  JS.lines (Lines.terminated lines ++ final) = (lines ++ [final])%list.
Proof.
  intros Hlines Hfinal. unfold JS.lines.
  induction Hlines as [|line lines Hline _ IH].
  - cbn. now rewrite lines_from_singleLine.
  - rewrite terminated_cons, !append_assoc, lines_from_line by exact Hline.
    rewrite <- app_comm_cons. cbn [append]. now rewrite IH.
Qed.

(** [split] after [join]: single lines joined by line feeds split into
    themselves. *)
Lemma lines_from_concat (first : string) (others : list string) (cur : string) :
  Forall (fun line => JS.singleLine line = true) (first :: others) ->
  JS.lines_from cur (String.concat JS.nl (first :: others)) = (cur ++ first) :: others.
Proof.
  revert first cur. induction others as [|second others IH]; intros first cur H;
    inversion H as [|? ? Hfirst Hothers]; subst.
  - cbn [String.concat]. now apply lines_from_singleLine.
  - change (String.concat JS.nl (first :: second :: others))
      with (first ++ JS.nl ++ String.concat JS.nl (second :: others)).
    rewrite lines_from_line by exact Hfirst. now rewrite IH.
Qed.

Lemma lines_concat (first : string) (others : list string) :
  Forall (fun line => JS.singleLine line = true) (first :: others) ->
  JS.lines (String.concat JS.nl (first :: others)) = first :: others.
Proof.
  intros H. unfold JS.lines. now rewrite lines_from_concat.
Qed.

Lemma concat_nl_terminated (first : string) (others : list string) :
  String.concat JS.nl (first :: others) ++ JS.nl = Lines.terminated (first :: others).
Proof.
  revert first. induction others as [|second others IH]; intros first.
  - rewrite terminated_cons. reflexivity.
  - change (String.concat JS.nl (first :: second :: others))
      with (first ++ JS.nl ++ String.concat JS.nl (second :: others)).
    rewrite terminated_cons, !append_assoc, IH. reflexivity.
Qed.

(** ** The lines of the daily view *)

(** Appending a group of the daily view appends its lines. *)
Lemma append_group (content heading : string) (tasks : list Task.t) :
  (if (0 <? List.length tasks)%nat
   then content ++ heading ++ JS.nl ++ Index.taskLines tasks ++ JS.nl ++ JS.nl
   else content)
  = content ++ Lines.terminated (Lines.group heading tasks).
Proof.
  destruct tasks as [|task tasks].
  - cbn. now rewrite append_empty_r.
  - cbn [List.length Nat.ltb Nat.leb Lines.group]. rewrite terminated_cons.
    rewrite terminated_app. unfold Index.taskLines. cbn [map].
    rewrite <- concat_nl_terminated, !append_assoc. reflexivity.
Qed.

Lemma daily_document_terminated (todayTasks overdueTasks : list Task.t) :
  Index.dailyPlanningDocument todayTasks overdueTasks
  = Lines.terminated (removelast (Lines.daily todayTasks overdueTasks))
    ++ Index.dailySummary overdueTasks todayTasks.
Proof.
  unfold Lines.daily. rewrite !app_assoc, removelast_last, <- !app_assoc.
  unfold Index.dailyPlanningDocument. cbv zeta. rewrite !append_group.
  f_equal. rewrite !terminated_app.
  destruct todayTasks as [|task rest];
    cbn [List.length Nat.ltb Nat.leb]; rewrite ?terminated_app, !append_assoc;
    reflexivity.
Qed.

Lemma taskLine_singleLine (tasks : list Task.t) :
  Forall (fun task => JS.singleLine (Task.content task) = true) tasks ->
  Forall (fun line => JS.singleLine line = true) (map Index.taskLine tasks).
Proof.
  induction 1 as [|task tasks Htask _ IH]; constructor; [|exact IH].
  unfold Index.taskLine. now rewrite singleLine_app, Htask.
Qed.

Lemma group_singleLine (heading : string) (tasks : list Task.t) :
  JS.singleLine heading = true ->
  Forall (fun task => JS.singleLine (Task.content task) = true) tasks ->
  Forall (fun line => JS.singleLine line = true) (Lines.group heading tasks).
Proof.
  intros Hheading Htasks. destruct tasks as [|task tasks]; [constructor|].
  unfold Lines.group. constructor; [exact Hheading|].
  apply Forall_app. split; [now apply taskLine_singleLine|].
  now constructor.
Qed.

Lemma Forall_filter {A : Type} (P : A -> Prop) (f : A -> bool) (l : list A) :
  Forall P l -> Forall P (filter f l).
Proof.
  induction 1 as [|x l Hx _ IH]; simpl; [constructor|].
  destruct (f x); [now constructor | exact IH].
Qed.

(** X10. When no task content holds a line feed, the daily view reads
    line by line as its layout says: title, blank line, the overdue
    group if there is an overdue task, the today heading, then either
    "No tasks scheduled for today." or the urgent, high and normal
    groups that are not empty, in that order, each task on a line of its
    own in query order, and the summary as the last line. *)
Theorem daily_view_lines (todayTasks overdueTasks : list Task.t)
  (Htoday : Forall (fun task => JS.singleLine (Task.content task) = true) todayTasks)
  (Hoverdue : Forall (fun task => JS.singleLine (Task.content task) = true)
                overdueTasks) :
  JS.lines (Index.dailyPlanningDocument todayTasks overdueTasks)
  = Lines.daily todayTasks overdueTasks.
Proof.
  rewrite daily_document_terminated, lines_terminated.
  - unfold Lines.daily. now rewrite !app_assoc, removelast_last.
  - unfold Lines.daily. rewrite !app_assoc, removelast_last, <- !app_assoc.
    repeat (apply Forall_app; split);
      try (repeat constructor; fail);
      try (apply group_singleLine; [reflexivity | assumption]).
    destruct todayTasks as [|task rest]; [repeat constructor|].
    repeat (apply Forall_app; split);
      apply group_singleLine; try reflexivity; now apply Forall_filter.
  - apply dailySummary_singleLine.
Qed.

Lemma daily_view_lines_witness :
  JS.lines (Index.dailyPlanningDocument Sample.today [Sample.task "Pay rent" 2 None])
  = ["# Daily Planning Overview"; EmptyString;
     "## 🚨 Overdue Tasks"; "- Pay rent"; EmptyString;
     "## 📅 Today's Tasks";
     "### 🔴 Urgent"; "- Write report"; EmptyString;
     "### 🟡 High Priority"; "- Call bank"; EmptyString;
     "### ⚪ Normal"; "- Water plants"; EmptyString;
     "**Summary:** 1 overdue, 3 today"].
Proof.
  apply (daily_view_lines Sample.today [Sample.task "Pay rent" 2 None]);
    repeat constructor.
Defined.

(** ** The lines of the weekly view *)

Lemma dueOn_not_nil (date : string) (l : list Task.t) :
  In date (Index.dueDates l) -> Index.dueOn date l <> [].
Proof.
  induction l as [|task l IH]; [contradiction|].
  rewrite dueDates_cons, dueOn_cons, in_app_iff.
  unfold Index.dueDates at 1, Index.dueOn at 1. simpl.
  destruct (Task.due task) as [due|]; simpl.
  - intros [[<-|[]]|H].
    + rewrite String.eqb_refl. discriminate.
    + destruct (String.eqb (Due.date due) date); [discriminate | now apply IH].
  - intros [[]|H]. now apply IH.
Qed.

Lemma dateSection_terminated (todayIso : string) (weekdayName : string -> string)
  (date : string) (first : Task.t) (others : list Task.t) :
  Index.dateSection todayIso weekdayName date (first :: others)
  = Lines.terminated
      (Lines.dateLine todayIso weekdayName date
       :: map Index.taskLine (first :: others) ++ [EmptyString]).
Proof.
  unfold Index.dateSection, Index.dateHeading, Lines.dateLine, Index.taskLines.
  rewrite terminated_cons, terminated_app. cbn [map].
  rewrite <- concat_nl_terminated, !append_assoc. reflexivity.
Qed.

Lemma dateSections_terminated (todayIso : string) (weekdayName : string -> string)
  (weekTasks : list Task.t) (o : Index.TasksByDate) (dates : list string) :
  (forall date, Index.tasksOn o date = Index.dueOn date weekTasks) ->
  (forall date, In date dates -> In date (Index.dueDates weekTasks)) ->
  String.concat EmptyString
    (map (fun date => Index.dateSection todayIso weekdayName date (Index.tasksOn o date))
       dates)
  = Lines.terminated
      (flat_map
         (fun date =>
            Lines.dateLine todayIso weekdayName date
            :: map Index.taskLine (Index.dueOn date weekTasks) ++ [EmptyString])
         dates).
Proof.
  intros Hon Hdates. induction dates as [|date dates IH]; [reflexivity|].
  cbn [map flat_map]. rewrite concat_empty_cons, terminated_app, IH.
  - f_equal. rewrite Hon.
    destruct (Index.dueOn date weekTasks) as [|first others] eqn:E.
    + exfalso. apply (dueOn_not_nil date weekTasks); [|exact E].
      apply Hdates. now left.
    + apply dateSection_terminated.
  - intros d Hd. apply Hdates. now right.
Qed.

Lemma dueOn_incl (date : string) (l : list Task.t) (task : Task.t) :
  In task (Index.dueOn date l) -> In task l.
Proof.
  unfold Index.dueOn. rewrite filter_In. tauto.
Qed.

(** X11. When contents, dates and weekday names hold no line feed, the
    weekly view of a non-empty query result reads line by line: title,
    blank line, then per date in ascending order the heading with the
    weekday, the date and the mark of today, the tasks due on that date
    one per line in query order and a blank line, and the total as the
    last line. *)
Theorem weekly_view_lines
  (todayIso : string) (weekdayName : string -> string)
  (weekTasks : list Task.t) (tasksByDate : Index.TasksByDate)
  (Hgroup : Index.groupByDate weekTasks = JS.Return tasksByDate)
  (Hnonempty : weekTasks <> [])
  (Hcontent : Forall (fun task => JS.singleLine (Task.content task) = true) weekTasks)
  (Hdates : Forall (fun date => JS.singleLine date = true
                                /\ JS.singleLine (weekdayName date) = true)
              (Index.dueDates weekTasks)) :
  exists document,
    Index.weeklyPlanningDocument todayIso weekdayName weekTasks = JS.Return document
    /\ JS.lines document
       = Lines.weekly todayIso weekdayName weekTasks (Index.sortedDates tasksByDate).
Proof.
  eexists. split; [exact (weekly_document _ _ _ tasksByDate Hnonempty Hgroup)|].
  pose proof (groupByDate_return _ _ Hgroup) as (Hkeys & _).
  assert (Hsorted : forall date, In date (Index.sortedDates tasksByDate) ->
                                 In date (Index.dueDates weekTasks)).
  { intros date H. apply Hkeys.
    eapply Permutation_in; [apply sortedDates_perm | exact H]. }
  unfold Index.dateSections.
  rewrite (dateSections_terminated todayIso weekdayName weekTasks);
    [|intros date; now apply tasksOn_dueOn | exact Hsorted].
  change ("# Weekly Planning Overview" ++ JS.nl ++ JS.nl)
    with (Lines.terminated ["# Weekly Planning Overview"; EmptyString]).
  rewrite <- append_assoc, <- terminated_app.
  rewrite lines_terminated; [reflexivity| |apply weeklyTotal_singleLine].
  apply Forall_app. split; [repeat constructor|].
  rewrite Forall_forall in *. intros line Hline.
  apply in_flat_map in Hline. destruct Hline as [date [Hdate Hline]].
  destruct Hline as [<-|Hline].
  - destruct (Hdates date (Hsorted date Hdate)) as [H1 H2].
    unfold Lines.dateLine. rewrite !singleLine_app, H1, H2.
    now destruct (String.eqb date todayIso).
  - apply in_app_iff in Hline. destruct Hline as [Hline|[<-|[]]]; [|reflexivity].
    apply in_map_iff in Hline. destruct Hline as [task [<- Htask]].
    unfold Index.taskLine. rewrite singleLine_app.
    now rewrite (Hcontent task (dueOn_incl _ _ _ Htask)).
Qed.

Lemma weekly_view_lines_witness :
  exists document,
    Index.weeklyPlanningDocument "2024-05-01" Sample.weekdayName Sample.week
    = JS.Return document
    /\ JS.lines document
       = ["# Weekly Planning Overview"; EmptyString;
          "## Wednesday, 2024-05-01 (Today)"; "- A"; EmptyString;
          "## Wednesday, 2024-05-02"; "- B"; EmptyString;
          "**Total this week:** 3 tasks"].
Proof.
  apply (weekly_view_lines "2024-05-01" Sample.weekdayName Sample.week
           [("2024-05-02", [Sample.task "B" 1 (Some "2024-05-02")]);
            ("2024-05-01", [Sample.task "A" 1 (Some "2024-05-01")])]).
  - reflexivity.
  - discriminate.
  - repeat constructor.
  - repeat constructor.
Defined.

(** ** The lines of a formatted task *)

Lemma singleLine_Z_toString (z : Z) : JS.singleLine (JS.Z_toString z) = true.
Proof.
  unfold JS.Z_toString, NilZero.string_of_int, NilZero.string_of_uint.
  destruct (Z.to_int z) as [d|d]; destruct d; try reflexivity;
    cbn [JS.singleLine]; try apply singleLine_uint.
Qed.

Lemma singleLine_concat (separator : string) (l : list string) :
  JS.singleLine separator = true ->
  forallb JS.singleLine l = true ->
  JS.singleLine (String.concat separator l) = true.
Proof.
  intros Hsep. induction l as [|x l IH]; [reflexivity|].
  cbn [forallb]. rewrite andb_true_iff. intros [Hx Hl].
  destruct l as [|y l]; [exact Hx|].
  change (String.concat separator (x :: y :: l))
    with (x ++ separator ++ String.concat separator (y :: l)).
  now rewrite !singleLine_app, Hx, Hsep, IH.
Qed.

(** Closes a goal saying that a rendered line holds no line feed. *)
Ltac single_line :=
  cbn [Index.show Lines.plainOption forallb] in *;
  rewrite ?singleLine_app, ?singleLine_Z_toString;
  repeat match goal with
         | H : JS.singleLine ?s = true |- context [JS.singleLine ?s] => rewrite H
         end;
  try reflexivity.

(** X12. A task whose fields hold no line feed is formatted by
    [formatTaskDetails] as one block of 1 to 6 lines: first the line
    with content and id, then one line for each of description, due
    date, priority (above 1), labels and project that is present and
    not empty; no line of the block is blank. *)
Theorem formatted_task_lines (task : Task.t)
  (Hplain : Lines.plainTask task = true) :
  hd EmptyString (JS.lines (Index.formatTaskDetails task))
  = "• " ++ Task.content task ++ " (ID: " ++ Task.id task ++ ")"
  /\ List.length (JS.lines (Index.formatTaskDetails task))
     = 1 + Lines.count (JS.truthy (Task.description task))
       + Lines.count (match Task.due task with Some _ => true | None => false end)
       + Lines.count (1 <? Task.priority task)%Z
       + Lines.count (match Task.labels task with
                      | Some (_ :: _) => true
                      | _ => false
                      end)
       + Lines.count (JS.truthy (Task.projectId task))
  /\ Forall (fun line => line <> EmptyString) (JS.lines (Index.formatTaskDetails task)).
Proof.
  unfold Lines.plainTask in Hplain. rewrite !andb_true_iff in Hplain.
  destruct Hplain as [[[[[Hid Hcontent] Hdescription] Hdue] Hlabels] Hproject].
  rewrite formatTaskDetails_lines.
  destruct (Task.description task) as [[|c1 description]|],
    (Task.due task) as [due|],
    (1 <? Task.priority task)%Z,
    (Task.labels task) as [[|label labels]|],
    (Task.projectId task) as [[|c2 project]|];
    cbn [List.concat Datatypes.app JS.truthy Lines.count];
    (rewrite lines_concat;
     [ cbn [hd List.length Nat.add]; repeat split;
       repeat (apply Forall_cons; [discriminate|]); apply Forall_nil
     | repeat (apply Forall_cons; [single_line|]); try apply Forall_nil ]).
  all: try (rewrite singleLine_concat; [reflexivity | reflexivity | exact Hlabels]).
Qed.

Lemma formatted_task_lines_witness :
  List.length
    (JS.lines (Index.formatTaskDetails (Sample.task "A" 4 (Some "2024-05-01")))) = 3
  /\ Forall (fun line => line <> EmptyString)
       (JS.lines (Index.formatTaskDetails (Sample.task "A" 4 (Some "2024-05-01")))).
Proof.
  destruct (formatted_task_lines (Sample.task "A" 4 (Some "2024-05-01")) eq_refl)
    as (_ & Hlength & Hlines).
  split; [exact Hlength | exact Hlines].
Defined.

(** ** The two formatters *)

(** X13. The helper [formatTaskDetails] and the formatter of
    [server.ts] give the same text for every task whose priority is not
    2, 3 or 4 and which has no project: they differ only in the label of
    the priority and in the name of the project line. *)
Theorem formatters_agree_without_label_and_project (task : Task.t)
  (Hpriority : ~ In (Task.priority task) [2; 3; 4]%Z)
  (Hproject : JS.truthy (Task.projectId task) = false) :
  ServerTs.formatTask task = Index.formatTaskDetails task.
Proof.
  rewrite formatTask_lines, formatTaskDetails_lines, Hproject.
  destruct (priorityText_spec (Task.priority task)) as (_ & _ & _ & Hnumeral).
  rewrite Hnumeral; [reflexivity| | |];
    intros E; apply Hpriority; rewrite E; simpl; tauto.
Qed.

Lemma formatters_agree_without_label_and_project_witness :
  ServerTs.formatTask (Sample.task "A" 1 (Some "2024-05-01"))
  = Index.formatTaskDetails (Sample.task "A" 1 (Some "2024-05-01")).
Proof.
  apply (formatters_agree_without_label_and_project
           (Sample.task "A" 1 (Some "2024-05-01"))).
  - simpl. intros [H|[H|[H|[]]]]; discriminate H.
  - reflexivity.
Defined.

(** ** The list of projects *)

Lemma projectLines_singleLine (projects : list Project.t) :
  Forall (fun project => JS.singleLine (Project.name project) = true
                         /\ JS.singleLine (Project.id project) = true)
    projects ->
  Forall (fun line => JS.singleLine line = true) (map Index.projectLine projects).
Proof.
  induction 1 as [|p l [Hname Hid] _ IH]; constructor; [|exact IH].
  unfold Index.projectLine. rewrite !singleLine_app, Hname, Hid.
  now destruct (Project.isShared p).
Qed.

(** X14. The projects tool ignores its arguments and lists every
    project the client returns on a line of its own, in the order
    returned, under the line "Projects:"; with no project the text is
    that line followed by an empty one, with no special message. *)
Theorem projects_are_listed_in_order
  (todoistClient : TodoistApi.t) (args : option JS.object)
  (projects : list Project.t)
  (Hquery : TodoistApi.getProjects todoistClient [] = JS.Return projects)
  (Hplain : Forall (fun project => JS.singleLine (Project.name project) = true
                                   /\ JS.singleLine (Project.id project) = true)
              projects) :
  exists text,
    Index.callTool todoistClient "todoist_get_projects" args
    = JS.Return (textResult text)
    /\ JS.lines text
       = "Projects:" :: match projects with
                        | [] => [EmptyString]
                        | _ :: _ => map Index.projectLine projects
                        end.
Proof.
  unfold Index.callTool, Index.route. cbn [String.eqb Ascii.eqb Bool.eqb].
  unfold Index.getProjects. rewrite Hquery. cbn [JS.bind JS.try_catch].
  eexists. split; [reflexivity|].
  unfold JS.lines. rewrite lines_from_line by reflexivity. cbn [append]. f_equal.
  destruct projects as [|project others]; [reflexivity|].
  cbn [map]. rewrite lines_from_concat; [reflexivity|].
  exact (projectLines_singleLine _ Hplain).
Qed.

Lemma projects_are_listed_in_order_witness :
  exists text,
    Index.callTool Sample.online "todoist_get_projects" None
    = JS.Return (textResult text)
    /\ JS.lines text = ["Projects:"; "- Home (ID: 1) [Shared]"].
Proof.
  apply (projects_are_listed_in_order Sample.online None
           [ {| Project.id := "1"; Project.name := "Home"; Project.isShared := true |} ]
           eq_refl).
  repeat constructor.
Defined.

(** ** Prompts *)

Lemma includes_after (needle before rest : string) :
  JS.includes needle rest = true -> JS.includes needle (before ++ rest) = true.
Proof.
  intros H. induction before as [|c before IH]; [exact H|].
  cbn [append JS.includes]. rewrite IH.
  now destruct (String.prefix needle (String c (before ++ rest))).
Qed.

Lemma includes_head (needle rest : string) :
  JS.includes needle (needle ++ rest) = true.
Proof. apply includes_prefix, prefix_app. Qed.

(** X15. The two registered prompts pass on what their view does: when
    the view (the daily one for [daily_planner], the weekly one for
    [task_manager]) throws, the prompt handler throws the same error;
    when it returns, the answer is a single message of role "user"
    whose text contains the view in full. *)
Theorem prompts_embed_their_view
  (todoistClient : TodoistApi.t) (overdueFirst : bool) (todayIso : string)
  (weekdayName : string -> string) (name : string)
  (args : option (list (string * string)))
  (Hregistered : Index.registeredPrompt name = true) :
  let view :=
    if String.eqb name "daily_planner"
    then Index.generateDailyPlanningView todoistClient overdueFirst
    else Index.generateWeeklyPlanningView todoistClient todayIso weekdayName in
  (forall e, view = JS.Throw e ->
             Index.getPrompt todoistClient overdueFirst todayIso weekdayName name args
             = JS.Throw e)
  /\ (forall document,
        view = JS.Return document ->
        exists description text,
          Index.getPrompt todoistClient overdueFirst todayIso weekdayName name args
          = JS.Return
              {| GetPromptResult.description := description;
                 GetPromptResult.messages :=
                   [ {| PromptMessage.role := "user";
                        PromptMessage.content :=
                          {| TextContent.type := "text";
                             TextContent.text := text |} |} ] |}
          /\ JS.includes document text = true).
Proof.
  assert (Hname : name = "daily_planner" \/ name = "task_manager").
  { unfold Index.registeredPrompt, Index.prompts in Hregistered.
    cbn [existsb Index.Prompt.name] in Hregistered.
    rewrite !orb_true_iff, !String.eqb_eq in Hregistered.
    destruct Hregistered as [H|[H|H]]; [now left | now right | discriminate H]. }
  destruct Hname as [-> | ->]; cbn [String.eqb Ascii.eqb Bool.eqb];
    unfold Index.getPrompt; cbn [String.eqb Ascii.eqb Bool.eqb]; split.
  - intros e H. unfold Index.generateDailyPlannerPrompt. now rewrite H.
  - intros document H. unfold Index.generateDailyPlannerPrompt. rewrite H.
    cbn [JS.bind]. do 2 eexists. split; [reflexivity|].
    do 3 apply includes_after. apply includes_head.
  - intros e H. unfold Index.generateTaskManagerPrompt. now rewrite H.
  - intros document H. unfold Index.generateTaskManagerPrompt. rewrite H.
    cbn [JS.bind]. do 2 eexists. split; [reflexivity|].
    do 3 apply includes_after. apply includes_head.
Qed.

Lemma prompts_embed_their_view_witness :
  Index.getPrompt
    (Sample.client (JS.Return []) (JS.Return []) (JS.Throw (JS.Error "timeout")))
    false "2024-05-01" Sample.weekdayName "task_manager" None
  = JS.Throw (JS.Error "timeout").
Proof.
  apply (prompts_embed_their_view
           (Sample.client (JS.Return []) (JS.Return []) (JS.Throw (JS.Error "timeout")))
           false "2024-05-01" Sample.weekdayName "task_manager" None eq_refl).
  reflexivity.
Defined.

(** X16. The context of the [task_manager] prompt: an empty context is
    the same as none; a context that is not empty is inserted, after
    two line feeds and "Specific context: ", between the weekly view and
    the fixed request, which are otherwise unchanged. *)
Theorem task_manager_context_is_inserted :
  exists head tail,
    forall (todoistClient : TodoistApi.t) (overdueFirst : bool) (todayIso : string)
           (weekdayName : string -> string) (args : option (list (string * string))),
      (Index.contextOf args = Some EmptyString ->
       Index.getPrompt todoistClient overdueFirst todayIso weekdayName
         "task_manager" args
       = Index.getPrompt todoistClient overdueFirst todayIso weekdayName
           "task_manager" None)
      /\ (forall weeklyView,
            Index.generateWeeklyPlanningView todoistClient todayIso weekdayName
            = JS.Return weeklyView ->
            Index.getPrompt todoistClient overdueFirst todayIso weekdayName
              "task_manager" None
            = JS.Return
                (Index.userMessage "Task management assistant"
                   (head ++ weeklyView ++ tail))
            /\ (forall context,
                  Index.contextOf args = Some context -> context <> EmptyString ->
                  Index.getPrompt todoistClient overdueFirst todayIso weekdayName
                    "task_manager" args
                  = JS.Return
                      (Index.userMessage "Task management assistant"
                         (head ++ weeklyView ++ JS.nl ++ JS.nl
                          ++ "Specific context: " ++ context ++ tail)))).
Proof.
  exists ("I need help managing my tasks effectively. Here's my current workload:"
          ++ JS.nl ++ JS.nl).
  exists (JS.nl ++ JS.nl
          ++ "Please help me:" ++ JS.nl
          ++ "1. **Organization** - How can I better organize these tasks?" ++ JS.nl
          ++ "2. **Workflow** - What's the most efficient approach?" ++ JS.nl
          ++ "3. **Tools** - What Todoist features/commands would help?" ++ JS.nl
          ++ "4. **Planning** - How should I approach this workload?" ++ JS.nl
          ++ JS.nl
          ++ "Give me actionable advice and specific Todoist commands I can use.").
  intros todoistClient overdueFirst todayIso weekdayName args.
  unfold Index.getPrompt. cbn [String.eqb Ascii.eqb Bool.eqb].
  unfold Index.generateTaskManagerPrompt. split.
  - intros ->. reflexivity.
  - intros weeklyView ->. cbn [JS.bind Index.contextOf JS.truthy]. split.
    + rewrite !append_assoc. reflexivity.
    + intros context -> Hcontext.
      destruct context as [|c context]; [contradiction|].
      cbn [JS.truthy Index.show]. rewrite !append_assoc. reflexivity.
Qed.

(** ** The tool of [server.ts] *)

Lemma includes_quoted (before quoted rest : string) :
  JS.includes (JS.dq ++ quoted ++ JS.dq)
    (before ++ JS.dq ++ quoted ++ JS.dq ++ rest) = true.
Proof.
  pose proof (includes_app (JS.dq ++ quoted ++ JS.dq) before rest) as H.
  now rewrite !append_assoc in H.
Qed.

Lemma includes_quoted_end (before quoted : string) :
  JS.includes (JS.dq ++ quoted ++ JS.dq) (before ++ JS.dq ++ quoted ++ JS.dq) = true.
Proof.
  pose proof (includes_app (JS.dq ++ quoted ++ JS.dq) before EmptyString) as H.
  now rewrite append_empty_r in H.
Qed.

(** X17. The callback of [server.ts] never throws: its answer is one
    text block, with [isError] true exactly when the remote query
    failed, and then the text "Error fetching tasks: " and the message;
    when the query returns, with or without a match, the text quotes the
    query. *)
Theorem server_ts_callback_always_answers
  (todoistClient : TodoistApi.t) (query : string) (lang : option string) :
  exists text,
    ServerTs.getTasksByFilter todoistClient query lang
    = JS.Return
        {| CallToolResult.content :=
             [ {| TextContent.type := "text"; TextContent.text := text |} ];
           CallToolResult.isError :=
             match TodoistApi.getTasks todoistClient
                     (Some [("filter", JS.VStr query);
                            ("lang", ServerTs.langValue lang)]) with
             | JS.Return _ => None
             | JS.Throw _ => Some true
             end |}
    /\ (forall e,
          TodoistApi.getTasks todoistClient
            (Some [("filter", JS.VStr query); ("lang", ServerTs.langValue lang)])
          = JS.Throw e ->
          text = "Error fetching tasks: " ++ JS.errorText e)
    /\ (forall tasks,
          TodoistApi.getTasks todoistClient
            (Some [("filter", JS.VStr query); ("lang", ServerTs.langValue lang)])
          = JS.Return tasks ->
          JS.includes (JS.dq ++ query ++ JS.dq) text = true).
Proof.
  unfold ServerTs.getTasksByFilter.
  destruct (TodoistApi.getTasks todoistClient _) as [tasks|e];
    cbn [JS.bind JS.try_catch].
  - destruct (Nat.eqb (List.length tasks) 0); eexists;
      (split; [reflexivity|]); (split; [discriminate|]); intros _ _.
    + apply includes_quoted_end.
    + do 2 apply includes_after. apply includes_quoted.
  - eexists. split; [reflexivity|]. split; [|discriminate].
    intros e' H. now injection H as <-.
Qed.

(** X18. The schema of [server.ts] accepts exactly the argument
    objects whose [query] is a string of 1 to 1024 code units and whose
    [lang] is absent or a string; the callback then receives these two
    values.  A call without an arguments object is refused. *)
Theorem server_ts_validation_is_exact
  (fields : JS.object) (query : string) (lang : option string) :
  (ServerTs.validate (Some fields) = Some (query, lang)
   <-> JS.get fields "query" = JS.VStr query
       /\ 1 <= JS.length query <= 1024
       /\ JS.get fields "lang" = ServerTs.langValue lang)
  /\ ServerTs.validate None = None.
Proof.
  split; [|reflexivity].
  unfold ServerTs.validate, Zod.parse, Zod.lengthOk.
  cbn [ServerTs.querySchema ServerTs.langSchema Zod.minLength Zod.maxLength
       Zod.isOptional Zod.min Zod.max Zod.optional Zod.z_string].
  split.
  - destruct (JS.get fields "query") as [| | | |q| |]; try discriminate.
    destruct (JS.length q <? 1)%nat eqn:Hmin; [discriminate|].
    destruct (1024 <? JS.length q)%nat eqn:Hmax; [discriminate|].
    apply Nat.ltb_ge in Hmin. apply Nat.ltb_ge in Hmax. cbn [negb andb].
    destruct (JS.get fields "lang") as [| | | |l| |]; try discriminate;
      intros H; injection H as <- <-; auto.
  - intros (-> & [Hmin Hmax] & ->).
    apply Nat.ltb_ge in Hmin. apply Nat.ltb_ge in Hmax. rewrite Hmin, Hmax.
    destruct lang; reflexivity.
Qed.

(** ** The first version of the server *)

(** X19. The first version of the server accepts every string as
    [filter], the empty one included, and runs the same callback as
    [server.ts]: for a filter of 1 to 1024 code units the two versions
    answer alike (one under the name [filter], the other under
    [query]); outside that range only the first version reaches the
    remote client. *)
Theorem first_version_accepts_every_filter
  (todoistClient : TodoistApi.t) (mcpServer : McpServer.t)
  (fields fields' : JS.object) (filter : string) (lang : option string)
  (Hfilter : JS.get fields "filter" = JS.VStr filter)
  (Hlang : JS.get fields "lang" = ServerTs.langValue lang)
  (Hquery : JS.get fields' "query" = JS.VStr filter)
  (Hlang' : JS.get fields' "lang" = ServerTs.langValue lang) :
  ServerV1.callTool todoistClient mcpServer "todoist_get_tasks_by_filter" (Some fields)
  = ServerV1.getTasksByFilter todoistClient filter lang
  /\ ServerV1.getTasksByFilter todoistClient filter lang
     = ServerTs.getTasksByFilter todoistClient filter lang
  /\ (1 <= JS.length filter <= 1024 ->
      ServerTs.callTool todoistClient mcpServer "todoist_get_tasks_by_filter" (Some fields')
      = ServerV1.callTool todoistClient mcpServer "todoist_get_tasks_by_filter" (Some fields))
  /\ (JS.length filter < 1 \/ 1024 < JS.length filter ->
      exists e,
        ServerTs.callTool todoistClient mcpServer "todoist_get_tasks_by_filter" (Some fields')
        = JS.Throw e).
Proof.
  assert (H1 : ServerV1.callTool todoistClient mcpServer "todoist_get_tasks_by_filter"
                 (Some fields)
               = ServerV1.getTasksByFilter todoistClient filter lang).
  { unfold ServerV1.callTool, ServerV1.validate.
    cbn [String.eqb Ascii.eqb Bool.eqb]. rewrite Hfilter, Hlang.
    destruct lang; reflexivity. }
  split; [exact H1|]. split; [reflexivity|]. split.
  - intros Hrange. rewrite H1.
    now rewrite (server_ts_accepts_in_range todoistClient mcpServer fields' filter lang).
  - intros Hrange.
    destruct (server_ts_rejects_out_of_range todoistClient mcpServer fields' filter Hquery
                Hrange) as [_ ->].
    eauto.
Qed.

Lemma first_version_accepts_every_filter_witness :
  ServerV1.callTool Sample.oneTask Sample.mcpServer "todoist_get_tasks_by_filter"
    (Some [("filter", JS.VStr EmptyString)])
  = ServerV1.getTasksByFilter Sample.oneTask EmptyString None
  /\ exists e,
       ServerTs.callTool Sample.oneTask Sample.mcpServer "todoist_get_tasks_by_filter"
         (Some [("query", JS.VStr EmptyString)])
       = JS.Throw e.
Proof.
  destruct (first_version_accepts_every_filter Sample.oneTask Sample.mcpServer
              [("filter", JS.VStr EmptyString)] [("query", JS.VStr EmptyString)]
              EmptyString None eq_refl eq_refl eq_refl eq_refl)
    as (H1 & _ & _ & H2).
  split; [exact H1|]. apply H2. left. simpl. lia.
Defined.

(** ** The list of tasks *)

(** Splitting at a line feed splits the lines. *)
Lemma lines_from_app (before rest cur : string) :
  JS.lines_from cur (before ++ JS.nl ++ rest)
  = (JS.lines_from cur before ++ JS.lines_from EmptyString rest)%list.
Proof.
  revert cur. induction before as [|c before IH]; intros cur; [reflexivity|].
  cbn [append JS.lines_from].
  destruct (Ascii.eqb c "010"); rewrite IH; reflexivity.
Qed.

Lemma lines_from_nl (rest cur : string) :
  JS.lines_from cur (JS.nl ++ rest) = cur :: JS.lines_from EmptyString rest.
Proof. reflexivity. Qed.

(** Blocks joined by a blank line split into the lines of the blocks,
    with one empty line between two blocks. *)
Lemma lines_blocks (first : string) (others : list string) :
  JS.lines (String.concat (JS.nl ++ JS.nl) (first :: others))
  = (JS.lines first ++ flat_map (fun block => EmptyString :: JS.lines block) others)%list.
Proof.
  unfold JS.lines. revert first.
  induction others as [|second others IH]; intros first.
  - cbn [String.concat flat_map]. now rewrite app_nil_r.
  - change (String.concat (JS.nl ++ JS.nl) (first :: second :: others))
      with (first ++ (JS.nl ++ JS.nl) ++ String.concat (JS.nl ++ JS.nl) (second :: others)).
    rewrite append_assoc, lines_from_app.
    rewrite lines_from_nl, IH. reflexivity.
Qed.

Lemma flat_map_after_map {A B C : Type} (g : A -> B) (f : B -> list C) (l : list A) :
  flat_map f (map g l) = flat_map (fun a => f (g a)) l.
Proof.
  induction l as [|a l IH]; simpl; [reflexivity | now rewrite IH].
Qed.

(** X20. The tasks tool answers an empty result with "No tasks found
    matching the criteria." and any other result with the line
    "Found N tasks:", N being the number of tasks returned, followed for
    each task, in the order returned, by an empty line and the lines of
    its formatted block. *)
Theorem tasks_are_listed_in_blocks
  (todoistClient : TodoistApi.t) (args : option JS.object) (tasks : list Task.t)
  (Hquery : TodoistApi.getTasks todoistClient args = JS.Return tasks) :
  exists text,
    Index.callTool todoistClient "todoist_get_tasks" args = JS.Return (textResult text)
    /\ JS.lines text
       = match tasks with
         | [] => ["No tasks found matching the criteria."]
         | _ :: _ =>
             ("Found " ++ JS.nat_toString (List.length tasks) ++ " tasks:")
             :: flat_map
                  (fun task => EmptyString :: JS.lines (Index.formatTaskDetails task))
                  tasks
         end.
Proof.
  unfold Index.callTool, Index.route. cbn [String.eqb Ascii.eqb Bool.eqb].
  unfold Index.getTasks. rewrite Hquery. cbn [JS.bind].
  destruct tasks as [|task others].
  - eexists. split; reflexivity.
  - cbn [List.length Nat.eqb JS.try_catch]. eexists. split; [reflexivity|].
    unfold JS.lines.
    rewrite <- !append_assoc, !(append_assoc _ JS.nl), lines_from_line.
    + cbn [map flat_map append]. f_equal.
      rewrite lines_from_nl, <- app_comm_cons. f_equal.
      fold (JS.lines
              (String.concat (JS.nl ++ JS.nl)
                 (Index.formatTaskDetails task :: map Index.formatTaskDetails others))).
      rewrite lines_blocks, flat_map_after_map. reflexivity.
    + rewrite !singleLine_app, singleLine_nat_toString. reflexivity.
Qed.

Lemma tasks_are_listed_in_blocks_witness :
  exists text,
    Index.callTool Sample.online "todoist_get_tasks" None = JS.Return (textResult text)
    /\ JS.lines text
       = ["Found 1 tasks:"; EmptyString; "• A (ID: 7)"; "  Priority: 4"].
Proof.
  apply (tasks_are_listed_in_blocks Sample.online None [Sample.task "A" 4 None] eq_refl).
Defined.
